(** * Verification model of scripts/speech_activity_detection.py

    A shallow embedding of the glue logic of the speech activity detection
    script: the epoch scanner, the call to the Gaussian-process optimizer in
    [tune], its [callback], its [objective_function] with the prediction
    cache, the polling loop of [validate] and the scoring loop of [test]
    (apply mode).  The external collaborators (neural sequence labeling,
    aggregation, binarization, pyannote.metrics) are section variables. *)

From Stdlib Require Import QArith Qabs Lqa ZArith Lia.
From stdpp Require Import base list gmap sets strings.
From Stdlib Require Import Ascii.

(** ** Python exceptions raised by the modelled code *)

Inductive py_exn :=
  | NameError (name : string)
  | UnboundLocalError (name : string)
  | KeyError (key : string)
  | ZeroDivisionError
  | TypeError (what : string)
  | PlotError.

(** ** Epoch scanner ([tune], lines 371-376)

    [isfile e] stands for [os.path.isfile(WEIGHTS_H5.format(epoch=e))].
    The [while True] loop is given fuel; a run out of fuel is [None]. *)

Fixpoint scan_epochs (isfile : nat -> bool) (fuel nb_epoch : nat) : option nat :=
  match fuel with
  | O => None
  | S fuel' =>
      if isfile nb_epoch then scan_epochs isfile fuel' (S nb_epoch)
      else Some nb_epoch
  end.

(** The weights files on disk, as the set of epochs that have one. *)
Definition checkpoint_exists (ckpts : gset nat) (e : nat) : bool :=
  bool_decide (e ∈ ckpts).

(** On a finite directory the loop stops within [size ckpts + 1] probes. *)
Definition count_epochs (ckpts : gset nat) : option nat :=
  scan_epochs (checkpoint_exists ckpts) (S (size ckpts)) 0.

(** ** The optimizer call of [tune] (lines 366, 478-487) *)

Inductive dimension :=
  | Integer (low high : Z)
  | Real (low high : Q) (prior : string).

Record gp_call := {
  gp_dimensions : list dimension;
  gp_n_calls : Z;
  gp_n_random_starts : Z;
  gp_x0 : Z * Q * Q;
  gp_random_state : Z;
  gp_np_seed : Z
}.

Definition tune_gp_call (nb_epoch : nat) : gp_call := {|
  gp_dimensions :=
    [Integer 0 (Z.of_nat nb_epoch - 1);
     Real 0 1 "uniform";
     Real 0 1 "uniform"];
  gp_n_calls := 1000;
  gp_n_random_starts := 10;
  gp_x0 := (Z.of_nat nb_epoch - 1, 1#2, 1#2)%Z;
  gp_random_state := 1337;
  gp_np_seed := 1337
|}.

(** [tune] up to the call: scan the epochs, then call [gp_minimize]. *)
Definition tune_setup (ckpts : gset nat) : option gp_call :=
  nb_epoch ← count_epochs ckpts; Some (tune_gp_call nb_epoch).

(** ** Python's [while True:] loop

    One iteration of a loop body ends by falling through or [continue]
    ([FContinue]), by [break], by [return], or by raising.  The loop is
    unfolded [fuel] times; [Pending] means it is still running. *)

Inductive flow (A : Type) :=
  | FContinue (s : A)
  | FBreak (s : A)
  | FReturn (s : A)
  | FRaise (e : py_exn) (s : A).
Arguments FContinue {A} s.
Arguments FBreak {A} s.
Arguments FReturn {A} s.
Arguments FRaise {A} e s.

Inductive outcome (A : Type) :=
  | Pending (s : A)
  | Returned (s : A)
  | Raised (e : py_exn) (s : A).
Arguments Pending {A} s.
Arguments Returned {A} s.
Arguments Raised {A} e s.

Fixpoint while_true {A} (body : A -> flow A) (fuel : nat) (s : A) : outcome A :=
  match fuel with
  | O => Pending s
  | S fuel' =>
      match body s with
      | FContinue s' => while_true body fuel' s'
      | FBreak s' => Returned s'
      | FReturn s' => Returned s'
      | FRaise e s' => Raised e s'
      end
  end.

Definition outcome_state {A} (o : outcome A) : A :=
  match o with Pending s | Returned s | Raised _ s => s end.

(** ** [validate] (lines 279-361) *)

(** One line [DER_TEMPLATE.format(epoch=epoch, der=der, now=now)]. *)
Record der_line := {
  dl_epoch : nat;
  dl_now : Z;
  dl_der : Q
}.

Record vstate := {
  v_clock : Z;                (** elapsed seconds *)
  v_epoch : nat;              (** local [epoch] *)
  v_der : option Q;           (** local [der]; [None] while unbound *)
  v_ders : list Q;            (** local [ders] *)
  v_der_txt : list der_line   (** contents of [{subset}.der.txt] *)
}.

(** [time.sleep(60)]: 60 more seconds on the clock, nothing else changed. *)
Definition slept (s : vstate) : vstate :=
  {| v_clock := (v_clock s + 60)%Z; v_epoch := v_epoch s; v_der := v_der s;
     v_ders := v_ders s; v_der_txt := v_der_txt s |}.

Section Validate.

(** [isfile t e]: the weights file of epoch [e] exists at time [t]
    (training runs concurrently and adds checkpoints over time). *)
Variable isfile : Z -> nat -> bool.
(** [isinstance(protocol, SpeakerDiarizationProtocol)] *)
Variable is_sd_protocol : bool.
(** What [speech_activity_detection_xp] gives for the aggregation built
    from the weights of an epoch (onset = offset = 0.5): the DER, or the
    exception it raises (on an empty subset, an unannotated file, ...). *)
Variable sad_xp : nat -> py_exn + Q.
(** [datetime.datetime.now()] at time [t]: local wall-clock time, which
    need not grow with [t] (clock adjustments, daylight saving). *)
Variable now_of : Z -> Z.

Definition validate_body (s : vstate) : flow vstate :=
  if negb (isfile (v_clock s) (v_epoch s)) then
    (* time.sleep(60); continue *)
    FContinue (slept s)
  else
    let now := now_of (v_clock s) in
    let der :=
      if is_sd_protocol then
        match sad_xp (v_epoch s) with
        | inl e => inl e
        | inr d => inr (Some d)
        end
      else inr (v_der s) in
    match der with
    | inl e =>
        (* the exception of speech_activity_detection_xp propagates *)
        FRaise e s
    | inr None => FRaise (UnboundLocalError "der") s
    | inr (Some d) =>
        (* fp.write(...); ders.append(der); plot; epoch += 1 *)
        FContinue {| v_clock := v_clock s; v_epoch := S (v_epoch s);
                     v_der := Some d; v_ders := v_ders s ++ [d];
                     v_der_txt := v_der_txt s ++
                       [{| dl_epoch := v_epoch s; dl_now := now; dl_der := d |}] |}
    end.

(** [open(path, mode='w')]: the previous contents are discarded. *)
Definition open_w (prior : list der_line) : list der_line := [].

Definition validate_start (clock0 : Z) (prior : list der_line) : vstate :=
  {| v_clock := clock0; v_epoch := 0; v_der := None; v_ders := [];
     v_der_txt := open_w prior |}.

Definition validate (fuel : nat) (clock0 : Z) (prior : list der_line)
  : outcome vstate :=
  while_true validate_body fuel (validate_start clock0 prior).

End Validate.

(** ** The optimizer result and [callback] of [tune] (lines 435-476) *)

(** [np.argmin]: index of the first minimum. *)
Fixpoint argmin_from (l : list Q) (i best : nat) (bv : Q) : nat :=
  match l with
  | [] => best
  | v :: l' =>
      if Qlt_le_dec v bv then argmin_from l' (S i) i v
      else argmin_from l' (S i) best bv
  end.

Definition argmin (l : list Q) : nat :=
  match l with
  | [] => 0
  | v :: l' => argmin_from l' 1 0 v
  end.

(** The fields of skopt's [OptimizeResult] the callback reads;
    [res.x] is [x_iters[argmin(func_vals)]]. *)
Record opt_result := {
  res_func_vals : list Q;
  res_x_iters : list (Z * Q * Q)
}.

Definition res_x (res : opt_result) : option (Z * Q * Q) :=
  res_x_iters res !! argmin (res_func_vals res).

Record tune_yml := {
  ty_nb_epoch : nat;
  ty_epoch : Z;
  ty_onset : Q;
  ty_offset : Q
}.

Inductive tune_effect :=
  | WriteTuneYml (p : tune_yml)
  | SavePng (name : string)
  | DumpTuneGz.

(** [plot_objective] is the exception [skopt.plots.plot_objective] raises,
    if any; [except Exception: pass] then skips its [savefig]. *)
Definition callback (nb_epoch : nat) (plot_objective : option py_exn)
    (res : opt_result) : list tune_effect :=
  let n_trials := length (res_func_vals res) in
  match res_x res with
  | None => []  (* res.x always exists once a trial has run *)
  | Some (epoch, onset, offset) =>
      [WriteTuneYml {| ty_nb_epoch := nb_epoch; ty_epoch := epoch;
                       ty_onset := onset; ty_offset := offset |};
       SavePng "convergence.png"] ++
      (if bool_decide (0 < n_trials mod 10)%nat then []
       else [SavePng "evaluation.png"] ++
            (match plot_objective with
             | None => [SavePng "objective.png"]
             | Some _ => []  (* except Exception as e: pass *)
             end) ++
            [DumpTuneGz])
  end.

(** The optimizer calls [callback] after each trial with the results so
    far: after trial [k] the first [k] values and points. *)
Definition res_after (k : nat) (vals : list Q) (xs : list (Z * Q * Q))
  : opt_result :=
  {| res_func_vals := take k vals; res_x_iters := take k xs |}.

(** ** Metrics of pyannote.metrics, as accumulated components *)

(** Components of one detection metric: [num] over [den]
    (precision: relevant retrieved / retrieved; recall: relevant retrieved /
    relevant; detection error rate: false alarm + miss / total). *)
Record comps := { c_num : Q; c_den : Q }.

Definition comps_zero : comps := {| c_num := 0; c_den := 0 |}.

Definition comps_add (a b : comps) : comps :=
  {| c_num := (c_num a + c_num b)%Q; c_den := (c_den a + c_den b)%Q |}.

(** [compute_metric] of [DetectionPrecision] and [DetectionRecall]: 1 on an
    empty denominator (the numerator is then 0 as well). *)
Definition ratio_or_one (c : comps) : Q :=
  if Qeq_dec (c_den c) 0 then 1 else (c_num c / c_den c)%Q.

(** [compute_metric] of [DetectionErrorRate]. *)
Definition der_value (c : comps) : Q :=
  if Qeq_dec (c_den c) 0 then (if Qeq_dec (c_num c) 0 then 0 else 1)
  else (c_num c / c_den c)%Q.

(** [pyannote.metrics.f_measure]: 0 when [precision + recall == 0],
    otherwise the quotient, which raises [ZeroDivisionError] when
    [beta * beta * precision + recall] is 0. *)
Definition f_measure (p r beta : Q) : py_exn + Q :=
  if Qeq_dec (p + r) 0 then inr 0%Q
  else
    let num := ((1 + beta * beta) * p * r)%Q in
    let den := (beta * beta * p + r)%Q in
    if Qeq_dec den 0 then inl ZeroDivisionError else inr (num / den)%Q.

(** The value [f_measure] returns when it does not raise. *)
Definition f_measure_value (p r beta : Q) : Q :=
  if Qeq_dec (p + r) 0 then 0%Q
  else ((1 + beta * beta) * p * r / (beta * beta * p + r))%Q.

(** [np.mean]; [None] is NaN (the mean of an empty list). *)
Definition mean (l : list Q) : option Q :=
  match l with
  | [] => None
  | _ => Some (fold_left Qplus l 0 / inject_Z (Z.of_nat (length l)))%Q
  end.

Section Pipeline.

(** A protocol item (a dict): its unique identifier and the optional
    ['annotation'] and ['annotated'] keys. *)
Context {Item Ref Uem Soft Hard : Type}.
Variable uri_of : Item -> string.
Variable annotation_of : Item -> option Ref.
Variable annotated_of : Item -> option Uem.
(** [annotation.get_timeline().extent()] *)
Variable extent : Ref -> Uem.

(** [get_annotated(item)], given the item's annotation. *)
Definition get_annotated (it : Item) (reference : Ref) : Uem :=
  match annotated_of it with
  | Some uem => uem
  | None => extent reference
  end.

(** *** [objective_function] of [tune] (lines 397-433) *)

(** [agg e it]: [aggregation.apply(it)] for the aggregation built from the
    weights of epoch [e]. *)
Variable agg : nat -> Item -> Soft.
(** [Binarize(onset=onset, offset=offset).apply(soft, dimension=1)] *)
Variable binarize : Q -> Q -> Soft -> Hard.
(** The components [DetectionErrorRate()(reference, hypothesis, uem=uem)]
    adds to the metric. *)
Variable der_comps : Ref -> Hard -> Uem -> comps.

(** The loop over the development files, with [predictions[epoch]] as
    [cache]; a [KeyError] keeps the updates already made to the dict. *)
Fixpoint objective_loop (epoch : nat) (onset offset : Q)
    (cache : gmap string Soft) (error : comps) (dev : list Item)
  : (py_exn + comps) * gmap string Soft :=
  match dev with
  | [] => (inr error, cache)
  | dev_file :: dev' =>
      let uri := uri_of dev_file in
      match annotation_of dev_file with
      | None => (inl (KeyError "annotation"), cache)
      | Some reference =>
          let uem := get_annotated dev_file reference in
          let '(prediction, cache') :=
            match cache !! uri with
            | Some p => (p, cache)
            | None => let p := agg epoch dev_file in (p, <[uri := p]> cache)
            end in
          let hypothesis := binarize onset offset prediction in
          objective_loop epoch onset offset cache'
            (comps_add error (der_comps reference hypothesis uem)) dev'
      end
  end.

(** [objective_function(parameters)], with the shared [predictions] dict
    threaded through: it returns the score (or the exception) and the dict
    after the call. *)
Definition objective_function (predictions : gmap nat (gmap string Soft))
    (dev : list Item) (parameters : nat * Q * Q)
  : (py_exn + Q) * gmap nat (gmap string Soft) :=
  let '(epoch, onset, offset) := parameters in
  let cache := default ∅ (predictions !! epoch) in
  let '(r, cache') := objective_loop epoch onset offset cache comps_zero dev in
  (match r with inl e => inl e | inr error => inr (der_value error) end,
   <[epoch := cache']> predictions).

(** *** Scoring loop of [test] (apply mode, lines 541-580) *)

(** [aggregation.apply] for the loaded weights, and the binarizer built
    from the tuned [onset]/[offset]. *)
Variable agg_test : Item -> Soft.
Variable binarize_test : Soft -> Hard.
(** The components [DetectionPrecision()] and [DetectionRecall()] add. *)
Variable prec_comps : Ref -> Hard -> Uem -> comps.
Variable rec_comps : Ref -> Hard -> Uem -> comps.
Variable beta : Q.
(** The exception [pickle.dump(soft, fp)] raises on the file opened with
    ['w'] (lines 550-551), if any: none under Python 2, where pickling into
    a text-mode file works, a [TypeError] under Python 3. *)
Variable pickle_dump : option py_exn.

(** One line [TEMPLATE.format(uri, precision, recall, f_measure)]. *)
Record eval_line := {
  el_uri : string;
  el_precision : Q;
  el_recall : Q;
  el_f_measure : option Q
}.

Inductive apply_effect :=
  | WriteSoftPkl (uri : string)
  | WriteHardJson (uri : string)
  | AppendEval (l : eval_line).

Record apply_state := {
  a_precision : comps;   (** accumulated by [precision] *)
  a_recall : comps;      (** accumulated by [recall] *)
  a_fscore : list Q;     (** local [fscore] *)
  a_log : list apply_effect
}.

(** The loop over the test files: the exception that ends it, if any, and
    the state at that point. *)
Fixpoint apply_items (files : list Item) (s : apply_state)
  : option py_exn * apply_state :=
  match files with
  | [] => (None, s)
  | test_file :: files' =>
      let soft := agg_test test_file in
      let hard := binarize_test soft in
      let uri := uri_of test_file in
      match pickle_dump with
      | Some e => (Some e, s)  (* the .soft.pkl file is left empty *)
      | None =>
          let log := a_log s ++ [WriteSoftPkl uri; WriteHardJson uri] in
          match annotation_of test_file, annotated_of test_file with
          | Some reference, Some uem =>
              let pc := prec_comps reference hard uem in
              let rc := rec_comps reference hard uem in
              let p := ratio_or_one pc in
              let r := ratio_or_one rc in
              match f_measure p r beta with
              | inl e =>
                  (Some e, {| a_precision := comps_add (a_precision s) pc;
                              a_recall := comps_add (a_recall s) rc;
                              a_fscore := a_fscore s; a_log := log |})
              | inr f =>
                  apply_items files'
                    {| a_precision := comps_add (a_precision s) pc;
                       a_recall := comps_add (a_recall s) rc;
                       a_fscore := a_fscore s ++ [f];
                       a_log := log ++ [AppendEval {| el_uri := uri; el_precision := p;
                                                      el_recall := r;
                                                      el_f_measure := Some f |}] |}
              end
          | _, _ =>
              (* except KeyError: continue *)
              apply_items files'
                {| a_precision := a_precision s; a_recall := a_recall s;
                   a_fscore := a_fscore s; a_log := log |}
          end
      end
  end.

(** The loop, then the "ALL" line (lines 574-580): the exception raised,
    if any, and the files written. *)
Definition apply_scoring (files : list Item) : option py_exn * list apply_effect :=
  match apply_items files
          {| a_precision := comps_zero; a_recall := comps_zero;
             a_fscore := []; a_log := [] |} with
  | (Some e, s) => (Some e, a_log s)
  | (None, s) =>
      (None,
       a_log s ++
       [AppendEval {| el_uri := "ALL";
                      el_precision := ratio_or_one (a_precision s);
                      el_recall := ratio_or_one (a_recall s);
                      el_f_measure := mean (a_fscore s) |}])
  end.

(** The items that reach the scoring lines (both keys present), with the
    precision and recall components of their hypothesis. *)
Definition scored (files : list Item) : list (string * comps * comps) :=
  omap (λ it,
    match annotation_of it, annotated_of it with
    | Some reference, Some uem =>
        let hard := binarize_test (agg_test it) in
        Some (uri_of it, prec_comps reference hard uem,
              rec_comps reference hard uem)
    | _, _ => None
    end) files.

(** The eval.txt line of one scored item. *)
Definition per_file_line (x : string * comps * comps) : eval_line :=
  let '(uri, pc, rc) := x in
  {| el_uri := uri; el_precision := ratio_or_one pc;
     el_recall := ratio_or_one rc;
     el_f_measure := Some (f_measure_value (ratio_or_one pc) (ratio_or_one rc) beta) |}.

(** The f-measure of one scored item. *)
Definition f_of (x : string * comps * comps) : Q :=
  f_measure_value (ratio_or_one x.1.2) (ratio_or_one x.2) beta.

End Pipeline.

(** The lines appended to [eval.txt]. *)
Definition eval_lines (log : list apply_effect) : list eval_line :=
  omap (fun e => match e with AppendEval l => Some l | _ => None end) log.

(** ** Start of [test] (apply mode, lines 492-521): name resolution of
    [epoch] on line 521 *)

Inductive pyval := VInt (z : Z) | VObj.

(** The names bound at module level: the imports, the top-level
    definitions, and every name the [__main__] block assigns, in any mode. *)
Definition module_names : list string :=
  ["__name__"; "__doc__"; "__file__"; "__builtins__";
   "time"; "yaml"; "pickle"; "os"; "datetime"; "functools"; "np"; "docopt";
   "matplotlib"; "plt"; "pyannote"; "SequenceLabeling";
   "SpeechActivityDetectionBatchGenerator"; "SequenceLabelingAggregation";
   "Binarize"; "get_database"; "FileFinder"; "get_unique_identifier";
   "get_annotated"; "SpeakerDiarizationProtocol"; "mkdir_p"; "SSMORMS3";
   "skopt"; "DetectionErrorRate"; "DetectionRecall"; "DetectionPrecision";
   "f_measure"; "WEIGHTS_H5"; "train"; "get_aggregation";
   "speech_activity_detection_xp"; "validate"; "tune"; "test";
   "arguments"; "db_yml"; "preprocessors"; "protocol"; "database_name";
   "task_name"; "protocol_name"; "database"; "subset"; "experiment_dir";
   "TRAIN_DIR"; "train_dir"; "validation_dir"; "res"; "beta"; "tune_dir";
   "apply_dir"].

Definition module_globals : gmap string pyval :=
  list_to_map (map (λ n, (n, VObj)) module_names).

(** The builtins the script refers to (Python has no builtin [epoch]). *)
Definition builtin_names : list string :=
  ["open"; "int"; "float"; "abs"; "len"; "getattr"; "isinstance";
   "__import__"].

(** The names [test] assigns, hence its locals. *)
Definition test_locals : list string :=
  ["protocol"; "tune_dir"; "apply_dir"; "subset"; "beta"; "train_dir";
   "config_dir"; "config_yml"; "fp"; "config"; "feature_extraction_name";
   "features"; "FeatureExtraction"; "feature_extraction"; "duration"; "step";
   "tune_yml"; "tune"; "architecture_yml"; "weights_h5"; "sequence_labeling";
   "aggregation"; "binarizer"; "HARD_JSON"; "SOFT_PKL"; "eval_txt";
   "TEMPLATE"; "precision"; "recall"; "fscore"; "test_file"; "soft"; "hard";
   "uri"; "path"; "reference"; "uem"; "e"; "p"; "r"; "f"; "line"].

(** Lookup of a name that is not local: module globals, then builtins. *)
Definition lookup_global (globals : gmap string pyval) (name : string)
  : py_exn + pyval :=
  match globals !! name with
  | Some v => inr v
  | None => if bool_decide (name ∈ builtin_names) then inr VObj
            else inl (NameError name)
  end.

(** The epoch formatted into [weights_h5] on line 521
    ([WEIGHTS_H5.format(train_dir=train_dir, epoch=epoch)]); the dict
    [tune] read from tune.yml on line 518 is not consulted. *)
Definition test_weights_epoch (globals : gmap string pyval)
    (tune : tune_yml) : py_exn + Z :=
  if bool_decide ("epoch" ∈ test_locals) then inl (UnboundLocalError "epoch")
  else
    match lookup_global globals "epoch" with
    | inl e => inl e
    | inr (VInt z) => inr z
    | inr VObj => inl (KeyError "epoch")
    end.

(** The claim's reading: the epoch comes from tune.yml. *)
Definition spec_weights_epoch (tune : tune_yml) : py_exn + Z :=
  inr (ty_epoch tune).

(** [test] (apply mode) from line 521 on: the weights file name, then the
    scoring loop; the exception raised, if any, and the files written
    under [apply_dir]. *)
Definition test_run {Item Ref Uem Soft Hard : Type} (globals : gmap string pyval)
    (tune : tune_yml) (uri_of : Item -> string) (annotation_of : Item -> option Ref)
    (annotated_of : Item -> option Uem) (agg_test : Item -> Soft)
    (binarize_test : Soft -> Hard) (prec_comps rec_comps : Ref -> Hard -> Uem -> comps)
    (beta : Q) (pickle_dump : option py_exn) (files : list Item)
  : option py_exn * list apply_effect :=
  match test_weights_epoch globals tune with
  | inl e => (Some e, [])
  | inr _ => apply_scoring uri_of annotation_of annotated_of agg_test binarize_test
               prec_comps rec_comps beta pickle_dump files
  end.

(** Concrete filesystems for the examples: every weights file present,
    or none. *)
Definition isfile_always (t : Z) (e : nat) : bool := true.
Definition isfile_never (t : Z) (e : nat) : bool := false.

(** ** Paths: [os.path.dirname] (posixpath) on the directory layout *)

Definition slash : ascii := "/"%char.

(** [str.rfind(c)], from index [i], with the last match so far in [acc]
    ([-1] when there is none). *)
Fixpoint rfind_from (l : list ascii) (c : ascii) (i : nat) (acc : Z) : Z :=
  match l with
  | [] => acc
  | x :: l' => rfind_from l' c (S i) (if ascii_dec x c then Z.of_nat i else acc)
  end.

Definition rfind (l : list ascii) (c : ascii) : Z := rfind_from l c 0 (-1).

Fixpoint lstrip_char (c : ascii) (l : list ascii) : list ascii :=
  match l with
  | [] => []
  | x :: l' => if ascii_dec x c then lstrip_char c l' else l
  end.

(** [head.rstrip(sep)] *)
Definition rstrip_char (c : ascii) (l : list ascii) : list ascii :=
  rev (lstrip_char c (rev l)).

(** [head != sep * len(head)] *)
Definition not_all_char (c : ascii) (l : list ascii) : bool :=
  negb (forallb (λ x, bool_decide (x = c)) l).

(** [posixpath.dirname]:
    [i = p.rfind(sep) + 1; head = p[:i];
     if head and head != sep*len(head): head = head.rstrip(sep)]. *)
Definition dirname_list (l : list ascii) : list ascii :=
  let i := Z.to_nat (rfind l slash + 1) in
  let head := take i l in
  if bool_decide (head ≠ []) && not_all_char slash head
  then rstrip_char slash head else head.

Definition dirname (p : string) : string :=
  String.string_of_list_ascii (dirname_list (String.list_ascii_of_string p)).

(** The tune directory the [__main__] block builds in tune mode (line 629). *)
Definition tune_dir_of (train_dir protocol subset : string) : string :=
  String.append train_dir
    (String.append "/tune/" (String.append protocol (String.append "." subset))).

(** The train directory laid out as the docstring describes it:
    [<experiment_dir>/train/<database.task.protocol>.<subset>]. *)
Definition train_dir_of (experiment_dir protocol subset : string) : string :=
  String.append experiment_dir
    (String.append "/train/" (String.append protocol (String.append "." subset))).

(** [test], lines 496-499: the train and configuration directories and the
    configuration file it derives from its [tune_dir]. *)
Definition test_train_dir (tune_dir : string) : string :=
  dirname (dirname tune_dir).

Definition test_config_yml (tune_dir : string) : string :=
  String.append (dirname (dirname (test_train_dir tune_dir))) "/config.yml".

(** [validate] and [tune], lines 284-285 and 378-379. *)
Definition config_yml_of_train_dir (train_dir : string) : string :=
  String.append (dirname (dirname train_dir)) "/config.yml".

(** ** [str.format] with keyword arguments

    Fields are [{name}] (a format spec or conversion after [:] or [!] is
    not applied; the name is the text before it), [{{] and [}}] are
    literal braces; [None] is the [ValueError] of a malformed template.
    A missing name raises [KeyError] at the first field that needs it. *)

Fixpoint assoc_lookup (kw : list (string * string)) (k : string) : option string :=
  match kw with
  | [] => None
  | (k', v) :: kw' => if String.string_dec k k' then Some v else assoc_lookup kw' k
  end.

Fixpoint field_name (l : list ascii) : list ascii :=
  match l with
  | [] => []
  | c :: l' =>
      if ascii_dec c ":" then [] else if ascii_dec c "!" then []
      else c :: field_name l'
  end.

Definition prepend (v : list ascii) (r : option (py_exn + list ascii))
  : option (py_exn + list ascii) :=
  match r with
  | Some (inr out) => Some (inr (v ++ out))
  | r => r
  end.

(** [field] is [Some text] (reversed) inside a replacement field. *)
Fixpoint format_l (kw : list (string * string)) (field : option (list ascii))
    (l : list ascii) : option (py_exn + list ascii) :=
  match field, l with
  | None, [] => Some (inr [])
  | Some _, [] => None
  | None, c :: l' =>
      if ascii_dec c "{" then
        match l' with
        | c' :: l'' => if ascii_dec c' "{" then prepend ["{"%char] (format_l kw None l'')
                       else format_l kw (Some []) l'
        | [] => None
        end
      else if ascii_dec c "}" then
        match l' with
        | c' :: l'' => if ascii_dec c' "}" then prepend ["}"%char] (format_l kw None l'')
                       else None
        | [] => None
        end
      else prepend [c] (format_l kw None l')
  | Some text, c :: l' =>
      if ascii_dec c "}" then
        let name := String.string_of_list_ascii (field_name (rev text)) in
        match assoc_lookup kw name with
        | None => Some (inl (KeyError name))
        | Some v => prepend (String.list_ascii_of_string v) (format_l kw None l')
        end
      else format_l kw (Some (c :: text)) l'
  end.

Definition str_format (template : string) (kw : list (string * string))
  : option (py_exn + string) :=
  match format_l kw None (String.list_ascii_of_string template) with
  | None => None
  | Some (inl e) => Some (inl e)
  | Some (inr out) => Some (inr (String.string_of_list_ascii out))
  end.

(** [TRAIN_DIR] and its formatting in train mode (lines 605-609). *)
Definition TRAIN_DIR : string := "{experiment_dir}/train/{protocol}.{subset}/{path}".

Definition main_train_dir (experiment_dir protocol subset : string)
  : option (py_exn + string) :=
  str_format TRAIN_DIR
    [("experiment_dir", experiment_dir); ("protocol", protocol);
     ("subset", subset)].

(** ** [speech_activity_detection_xp] (lines 255-277) *)

Section Experiment.

Context {Item Ref Uem Soft Hard : Type}.
Variable uri_of : Item -> string.
Variable annotation_of : Item -> option Ref.
Variable annotated_of : Item -> option Uem.
Variable extent : Ref -> Uem.
(** [aggregation.apply(item)] *)
Variable aggregation_apply : Item -> Soft.
(** [Binarize(onset=onset, offset=offset).apply(soft, dimension=1)] *)
Variable binarize : Q -> Q -> Soft -> Hard.
(** The components of one call [detection_error_rate(reference, hyp, uem)];
    the call returns the metric of these components. *)
Variable der_comps : Ref -> Hard -> Uem -> comps.

(** First loop: [predictions[uri] = aggregation.apply(item)]. *)
Fixpoint xp_predictions (items : list Item) (predictions : gmap string Soft)
  : gmap string Soft :=
  match items with
  | [] => predictions
  | item :: items' =>
      xp_predictions items' (<[uri_of item := aggregation_apply item]> predictions)
  end.

(** Second loop; [der] is the local variable ([None] while unbound). *)
Fixpoint xp_score (onset offset : Q) (predictions : gmap string Soft)
    (der : option Q) (items : list Item) : py_exn + option Q :=
  match items with
  | [] => inr der
  | item :: items' =>
      let uri := uri_of item in
      match annotation_of item with
      | None => inl (KeyError "annotation")
      | Some reference =>
          let uem := get_annotated annotated_of extent item reference in
          match predictions !! uri with
          | None => inl (KeyError uri)
          | Some prediction =>
              let hypothesis := binarize onset offset prediction in
              xp_score onset offset predictions
                (Some (der_value (der_comps reference hypothesis uem))) items'
          end
      end
  end.

(** [return abs(der), onset, offset] *)
Definition speech_activity_detection_xp (items : list Item) (onset offset : Q)
  : py_exn + (Q * Q * Q) :=
  match xp_score onset offset (xp_predictions items ∅) None items with
  | inl e => inl e
  | inr None => inl (UnboundLocalError "der")
  | inr (Some der) => inr (Qabs der, onset, offset)
  end.

End Experiment.

(** A concrete apply run: two test files (items 0 and 1) with both keys;
    the hypothesis of file 0 is all correct, that of file 1 retrieves three
    seconds of which one is speech; each file has one second of speech. *)
Definition ex_prec_comps (reference : unit) (hard : nat) (uem : unit) : comps :=
  if bool_decide (hard = 0) then {| c_num := 1; c_den := 1 |}
  else {| c_num := 1; c_den := 3 |}.
Definition ex_rec_comps (reference : unit) (hard : nat) (uem : unit) : comps :=
  {| c_num := 1; c_den := 1 |}.
Definition ex_uri (i : nat) : string := if bool_decide (i = 0) then "a" else "b".

(** The tune.yml of the run. *)
Definition ex_tune : tune_yml :=
  {| ty_nb_epoch := 5; ty_epoch := 2; ty_onset := 1#2; ty_offset := 1#2 |}.

(** Apply mode on these files, as written. *)
Definition ex_test_run : option py_exn * list apply_effect :=
  test_run (Item:=nat) (Ref:=unit) (Uem:=unit) module_globals ex_tune ex_uri
    (λ _, Some tt) (λ _, Some tt) (λ i, i) (λ h, h)
    ex_prec_comps ex_rec_comps 1 None [0; 1].

(** The scoring loop of lines 541-580 on these files, with [pickle.dump]
    succeeding. *)
Definition ex_apply : option py_exn * list apply_effect :=
  apply_scoring (Item:=nat) (Ref:=unit) (Uem:=unit) ex_uri
    (λ _, Some tt) (λ _, Some tt) (λ i, i) (λ h, h)
    ex_prec_comps ex_rec_comps 1 None [0; 1].

(** A test file without annotation, and a tune result after 10 trials. *)
Definition ex_state0 : apply_state :=
  {| a_precision := comps_zero; a_recall := comps_zero; a_fscore := [];
     a_log := [] |}.

Definition ex_res10 : opt_result :=
  {| res_func_vals := repeat (1#2) 10;
     res_x_iters := repeat (2%Z, 1#2, 1#4) 10 |}.

(** [der, onset, offset = speech_activity_detection_xp(...)] in [validate]
    (lines 333-335): the DER, or the exception. *)
Definition validate_der_of (r : py_exn + (Q * Q * Q)) : py_exn + Q :=
  match r with
  | inl e => inl e
  | inr (der, _, _) => inr der
  end.

(** The prediction dict of [tune] after epoch 2 was evaluated on file
    "a" (item 0), with [aggregation.apply] the identity on items. *)
Definition ex_predictions : gmap nat (gmap string nat) := {[2 := {["a" := 0]}]}.

(** A speaker diarization protocol whose development subset is empty. *)
Definition ex_sad_xp_empty (epoch : nat) : py_exn + Q :=
  validate_der_of
    (speech_activity_detection_xp (Item:=nat) (Ref:=unit) (Uem:=unit) (Soft:=nat) (Hard:=nat)
       ex_uri (λ _, Some tt) (λ _, Some tt) (λ _, tt) (λ i, i) (λ _ _ s, s)
       ex_prec_comps [] (1#2) (1#2)).

(** * Proofs *)

(** ** Epoch scanner *)

Lemma prefix_size (ckpts : gset nat) (n : nat) :
  (∀ k, k < n → k ∈ ckpts) → n ≤ size ckpts.
Proof.
  intros Hall.
  rewrite <- (size_set_seq (C:=gset nat) 0 n).
  apply subseteq_size. intros k Hk.
  apply elem_of_set_seq in Hk. apply Hall. lia.
Qed.

Lemma scan_epochs_spec (ckpts : gset nat) (fuel n : nat) :
  (∀ k, k < n → k ∈ ckpts) → size ckpts < fuel + n →
  ∃ m, scan_epochs (checkpoint_exists ckpts) fuel n = Some m ∧
       (m ∉ ckpts) ∧ (∀ k, k < m → k ∈ ckpts).
Proof.
  revert n. induction fuel as [|fuel IH]; intros n Hall Hsize; simpl.
  - pose proof (prefix_size ckpts n Hall). lia.
  - unfold checkpoint_exists at 1. case_bool_decide as Hn.
    + apply IH; [|lia]. intros k Hk.
      destruct (decide (k = n)) as [->|]; [done|]. apply Hall. lia.
    + exists n. auto.
Qed.

(** ** Helpers for the optimizer result *)

Lemma argmin_from_spec (l : list Q) (i best : nat) (bv : Q) (full : list Q) :
  full !! best = Some bv →
  (∀ j v, j < i → full !! j = Some v → Qle bv v) →
  (∀ j v, l !! j = Some v → full !! (i + j)%nat = Some v) →
  ∃ m, full !! argmin_from l i best bv = Some m ∧
       (∀ j v, j < i + length l → full !! j = Some v → Qle m v).
Proof.
  revert i best bv. induction l as [|v l IH]; intros i best bv Hb Hmin Hl; simpl.
  - exists bv. split; [done|]. intros j w Hj Hw. apply (Hmin j); [lia|done].
  - assert (Hv : full !! i = Some v) by (rewrite <- (Nat.add_0_r i); apply (Hl 0); done).
    assert (Hl' : ∀ j w, l !! j = Some w → full !! (S i + j)%nat = Some w).
    { intros j w Hw. replace (S i + j)%nat with (i + S j)%nat by lia. apply Hl. done. }
    destruct (Qlt_le_dec v bv) as [Hlt|Hle].
    + assert (Hmin' : ∀ j w, j < S i → full !! j = Some w → Qle v w).
      { intros j w Hj Hw. destruct (decide (j = i)) as [->|Hne].
        - rewrite Hv in Hw. injection Hw as <-. apply Qle_refl.
        - apply Qle_trans with bv; [apply Qlt_le_weak; done|]. apply (Hmin j); [lia|done]. }
      destruct (IH (S i) i v Hv Hmin' Hl') as (m & Hm & Hmm).
      exists m. split; [done|]. intros j w Hj Hw. apply (Hmm j); [simpl in Hj; lia|done].
    + assert (Hmin' : ∀ j w, j < S i → full !! j = Some w → Qle bv w).
      { intros j w Hj Hw. destruct (decide (j = i)) as [->|Hne].
        - rewrite Hv in Hw. injection Hw as <-. done.
        - apply (Hmin j); [lia|done]. }
      destruct (IH (S i) best bv Hb Hmin' Hl') as (m & Hm & Hmm).
      exists m. split; [done|]. intros j w Hj Hw. apply (Hmm j); [simpl in Hj; lia|done].
Qed.

Lemma argmin_spec (l : list Q) :
  l ≠ [] →
  ∃ m, l !! argmin l = Some m ∧ (∀ v, v ∈ l → Qle m v).
Proof.
  intros Hne. destruct l as [|v0 l]; [done|]. simpl.
  assert (Hmin : ∀ j w, j < 1 → (v0 :: l) !! j = Some w → Qle v0 w).
  { intros j w Hj Hw. assert (j = 0) as -> by lia. simpl in Hw.
    injection Hw as <-. apply Qle_refl. }
  destruct (argmin_from_spec l 1 0 v0 (v0 :: l) eq_refl Hmin) as (m & Hm & Hmm).
  { intros j w Hw. simpl. done. }
  exists m. split; [done|]. intros w Hw.
    apply list_elem_of_lookup in Hw as [j Hj].
    apply (Hmm j); [|done]. apply lookup_lt_Some in Hj. simpl in Hj |- *. lia.
Qed.

(** ** C3 *)

(** C3: the epoch scanner of [tune] probes epochs 0, 1, 2, ... and returns
    the smallest epoch whose weights file does not exist, for every finite
    set of checkpoints; with epochs 0, 1, 2, 5, 6 on disk it returns 3. *)
Theorem count_epochs_first_gap (ckpts : gset nat) :
  (∃ m, count_epochs ckpts = Some m ∧ (m ∉ ckpts) ∧
        (∀ k, k < m → k ∈ ckpts)) ∧
  count_epochs (list_to_set [0; 1; 2; 5; 6]) = Some 3.
Proof.
  split.
  - apply scan_epochs_spec; [intros; lia | lia].
  - reflexivity.
Qed.

(** ** C5 *)

(** C5: [tune] calls [gp_minimize] with 1000 calls, 10 random starts, the
    fixed seed 1337 (also given to numpy), an integer epoch dimension
    [0, nb_epoch - 1] and uniform real onset and offset dimensions [0, 1],
    where [nb_epoch] is the number of checkpoints the scanner found. *)
Theorem tune_gp_call_config (ckpts : gset nat) :
  ∃ nb_epoch call,
    count_epochs ckpts = Some nb_epoch ∧ tune_setup ckpts = Some call ∧
    (nb_epoch ∉ ckpts) ∧ (∀ k, k < nb_epoch → k ∈ ckpts) ∧
    gp_n_calls call = 1000%Z ∧ gp_n_random_starts call = 10%Z ∧
    gp_random_state call = 1337%Z ∧ gp_np_seed call = 1337%Z ∧
    gp_dimensions call =
      [Integer 0 (Z.of_nat nb_epoch - 1); Real 0 1 "uniform";
       Real 0 1 "uniform"].
Proof.
  destruct (scan_epochs_spec ckpts (S (size ckpts)) 0) as (m & Hm & Hnot & Hall);
    [intros; lia | lia |].
  exists m, (tune_gp_call m).
  unfold tune_setup, count_epochs. rewrite Hm. simpl.
  repeat split; auto.
Qed.

(** ** C6 *)

(** C6 (as stated, refuted): the convergence plot is not regenerated only
    after every 10th trial: the callback after the first trial saves it. *)
Lemma callback_convergence_not_only_tenth :
  ¬ (∀ nb_epoch ok vals xs k,
       SavePng "convergence.png" ∈ callback nb_epoch ok (res_after k vals xs) →
       k mod 10 = 0).
Proof.
  intros H.
  specialize (H 4 None [1#2]%Q [(3%Z, 1#2, 1#2)%Q] 1).
  assert (1 mod 10 = 0) as Hbad.
  { apply H. simpl. set_solver. }
  discriminate Hbad.
Qed.

(** C6 (amended): after trial [k] the callback writes tune.yml with the
    point of a best value among the first [k] trials and regenerates the
    convergence plot; the evaluation plot and the tune.gz dump come only
    when [k] is a multiple of 10, and the objective plot then too, unless
    [plot_objective] fails. *)
Theorem callback_effects (nb_epoch : nat) (ok : option py_exn) (vals : list Q)
    (xs : list (Z * Q * Q)) (k : nat)
    (Hlen : length xs = length vals) (Hk1 : 1 ≤ k) (Hk : k ≤ length vals) :
  let eff := callback nb_epoch ok (res_after k vals xs) in
  (∃ j m epoch onset offset,
      j < k ∧ vals !! j = Some m ∧ (∀ v, v ∈ take k vals → Qle m v) ∧
      xs !! j = Some (epoch, onset, offset) ∧
      WriteTuneYml {| ty_nb_epoch := nb_epoch; ty_epoch := epoch;
                      ty_onset := onset; ty_offset := offset |} ∈ eff) ∧
  SavePng "convergence.png" ∈ eff ∧
  (SavePng "evaluation.png" ∈ eff ↔ k mod 10 = 0) ∧
  (DumpTuneGz ∈ eff ↔ k mod 10 = 0) ∧
  (SavePng "objective.png" ∈ eff ↔ k mod 10 = 0 ∧ ok = None).
Proof.
  intros eff.
  assert (Htk : length (take k vals) = k) by (rewrite length_take; lia).
  destruct (argmin_spec (take k vals)) as (m & Hm & Hmin).
  { intros Hnil. rewrite Hnil in Htk. simpl in Htk. lia. }
  set (j := argmin (take k vals)) in *.
  assert (Hj : j < k) by (apply lookup_lt_Some in Hm; lia).
  rewrite lookup_take_lt in Hm by done.
  destruct (lookup_lt_is_Some_2 xs j) as [[[e on] off] Hx]; [lia|].
  assert (Hres : res_x (res_after k vals xs) = Some (e, on, off)).
  { unfold res_x, res_after. cbn [res_func_vals res_x_iters].
    change (argmin (take k vals)) with j. rewrite lookup_take_lt by done. done. }
  unfold eff, callback. rewrite Hres. simpl (res_func_vals _). rewrite Htk.
  split; [|split].
  - exists j, m, e, on, off. repeat split; auto. set_solver.
  - set_solver.
  - case_bool_decide as Hmod.
    + assert (k mod 10 ≠ 0) by lia. rewrite app_nil_r.
      assert (∀ x, x ∈ [WriteTuneYml {| ty_nb_epoch := nb_epoch; ty_epoch := e;
                                       ty_onset := on; ty_offset := off |};
                        SavePng "convergence.png"] →
                   x ≠ SavePng "evaluation.png" ∧ x ≠ DumpTuneGz ∧
                   x ≠ SavePng "objective.png") as Hnot.
      { intros x Hin. apply elem_of_cons in Hin as [->|Hin];
          [|apply list_elem_of_singleton in Hin as ->]; repeat split; congruence. }
      split; [|split]; split; intros Hin;
        try (exfalso; lia); try (destruct Hin; exfalso; lia);
        apply Hnot in Hin; tauto.
    + assert (k mod 10 = 0) by lia.
      split; [|split]; split; intros; try done; destruct ok; set_solver.
Qed.

(** ** The polling loop of [validate] *)

Section ValidateProofs.

Variable isfile : Z -> nat -> bool.
Variable sad_xp : nat -> py_exn + Q.
Variable now_of : Z -> Z.

Local Abbreviation body sd := (validate_body isfile sd sad_xp now_of).

Lemma validate_body_cases (sd : bool) (s : vstate) :
  (∃ s', body sd s = FContinue s') ∨ (∃ e s', body sd s = FRaise e s').
Proof.
  unfold validate_body.
  destruct (isfile (v_clock s) (v_epoch s)); simpl; [|eauto].
  destruct sd; [destruct (sad_xp (v_epoch s)) as [|d]|destruct (v_der s)]; eauto.
Qed.

Lemma validate_body_sd_ok (s : vstate) :
  (∀ e, ∃ d, sad_xp e = inr d) → ∃ s', body true s = FContinue s'.
Proof.
  intros Hok. unfold validate_body.
  destruct (isfile (v_clock s) (v_epoch s)); simpl; [|eauto].
  destruct (Hok (v_epoch s)) as [d ->]. eauto.
Qed.

Lemma validate_body_der_txt (sd : bool) (s s' : vstate) :
  (body sd s = FContinue s' ∨ ∃ e, body sd s = FRaise e s') →
  v_der_txt s `prefix_of` v_der_txt s'.
Proof.
  unfold validate_body. intros H.
  destruct (isfile (v_clock s) (v_epoch s)); simpl in H.
  - destruct sd; [destruct (sad_xp (v_epoch s))|destruct (v_der s)];
      destruct H as [H|[e H]]; inversion H; subst; simpl;
      first [by apply prefix_app_r | done].
  - destruct H as [H|[e H]]; inversion H; subst; done.
Qed.

Lemma while_true_der_txt (sd : bool) (fuel : nat) (s : vstate) :
  v_der_txt s `prefix_of` v_der_txt (outcome_state (while_true (body sd) fuel s)).
Proof.
  revert s. induction fuel as [|fuel IH]; intros s; simpl; [done|].
  destruct (body sd s) as [s'|s'|s'|e s'] eqn:Hb; simpl.
  - etrans; [|apply IH]. apply (validate_body_der_txt sd). auto.
  - destruct (validate_body_cases sd s) as [[? H]|[? [? H]]]; congruence.
  - destruct (validate_body_cases sd s) as [[? H]|[? [? H]]]; congruence.
  - apply (validate_body_der_txt sd). eauto.
Qed.

Lemma while_true_not_sd (fuel : nat) (s : vstate) :
  v_der s = None → v_der_txt s = [] →
  (∃ s', while_true (body false) fuel s = Pending s' ∧ v_der_txt s' = []) ∨
  (∃ s', while_true (body false) fuel s = Raised (UnboundLocalError "der") s' ∧
         v_der_txt s' = []).
Proof.
  revert s. induction fuel as [|fuel IH]; intros s Hder Htxt; simpl; [eauto|].
  destruct (isfile (v_clock s) (v_epoch s)) eqn:Hf.
  - right. unfold validate_body. rewrite Hf. simpl. rewrite Hder.
    eexists. split; [reflexivity|]. done.
  - assert (Hb : body false s = FContinue (slept s)).
    { unfold validate_body. rewrite Hf. done. }
    rewrite Hb. apply IH; simpl; done.
Qed.

Lemma while_true_never_returns (sd : bool) (fuel : nat) (s0 s' : vstate) :
  while_true (body sd) fuel s0 ≠ Returned s'.
Proof.
  revert s0. induction fuel as [|fuel IH]; intros s0; simpl; [done|].
  destruct (validate_body_cases sd s0) as [[s1 H]|[e [s1 H]]]; rewrite H; [apply IH|done].
Qed.

End ValidateProofs.

(** C4 (as stated, refuted): a DER line written in an earlier run of
    validation mode is lost: [open(path, mode='w')] truncates der.txt, so
    after the first epoch of the new run the file holds only the new line. *)
Lemma validate_truncates_prior_der_txt :
  let prior := [{| dl_epoch := 0; dl_now := 0; dl_der := 1#4 |}] in
  let after := v_der_txt (outcome_state
                 (validate (λ _ _, true) true (λ _, inr (1#2)) (λ t, t) 1 100 prior)) in
  after = [{| dl_epoch := 0; dl_now := 100; dl_der := 1#2 |}] ∧
  ¬ prior `prefix_of` after.
Proof.
  simpl. split; [reflexivity|].
  intros [k Hk]. simpl in Hk. injection Hk as Hq _. discriminate Hq.
Qed.

(** C4 (amended): validation starts by truncating der.txt; within the run
    the file only grows (what the run wrote stays a prefix), and each
    evaluated epoch appends exactly its own line at the end. *)
Theorem validate_der_txt_appends (isfile : Z → nat → bool) (sd : bool)
    (sad_xp : nat → py_exn + Q) (now_of : Z → Z) (s : vstate) (d : Q)
    (Havail : isfile (v_clock s) (v_epoch s) = true) (Hsd : sd = true)
    (Hxp : sad_xp (v_epoch s) = inr d) :
  (∀ clock0 prior, v_der_txt (validate_start clock0 prior) = []) ∧
  (∀ fuel s0, v_der_txt s0 `prefix_of`
     v_der_txt (outcome_state
       (while_true (validate_body isfile sd sad_xp now_of) fuel s0))) ∧
  (∃ s', validate_body isfile sd sad_xp now_of s = FContinue s' ∧
         v_der_txt s' = v_der_txt s ++
           [{| dl_epoch := v_epoch s; dl_now := now_of (v_clock s); dl_der := d |}]).
Proof.
  split; [done|]. split; [intros; apply while_true_der_txt|].
  subst sd. unfold validate_body. rewrite Havail. simpl. rewrite Hxp. eauto.
Qed.

Lemma validate_der_txt_appends_witness :
  isfile_always 0 0 = true ∧ true = true ∧ (λ _ : nat, @inr py_exn Q (1#2)) 0 = inr (1#2) ∧
  (∀ clock0 prior, v_der_txt (validate_start clock0 prior) = []) ∧
  (∀ fuel s0, v_der_txt s0 `prefix_of`
     v_der_txt (outcome_state
       (while_true (validate_body isfile_always true (λ _, inr (1#2)) (λ t, t)) fuel s0))) ∧
  (∃ s', validate_body isfile_always true (λ _, inr (1#2)) (λ t, t) (validate_start 0 []) =
           FContinue s' ∧
         v_der_txt s' = [{| dl_epoch := 0; dl_now := 0; dl_der := 1#2 |}]).
Proof.
  split; [reflexivity|]. split; [reflexivity|]. split; [reflexivity|].
  apply (validate_der_txt_appends isfile_always true (λ _, inr (1#2)) (λ t, t)
           (validate_start 0 []) (1#2)); reflexivity.
Defined.

(** ** C7 *)

(** C7 (as stated, refuted): validation does not only stop from outside.
    With a [SpeakerDiarizationProtocol] whose development subset is empty,
    [speech_activity_detection_xp] raises [UnboundLocalError] on [der], and
    the first iteration that finds a weights file ends [validate] with
    that exception. *)
Lemma validate_raises_on_empty_subset :
  validate isfile_always true ex_sad_xp_empty (λ t, t) 1 0 [] =
    Raised (UnboundLocalError "der") (validate_start 0 []) ∧
  (∀ fuel, 1 ≤ fuel →
     validate isfile_always true ex_sad_xp_empty (λ t, t) fuel 0 [] =
       Raised (UnboundLocalError "der") (validate_start 0 [])).
Proof.
  split; [reflexivity|].
  intros [|fuel] Hfuel; [lia|]. reflexivity.
Qed.

(** C7 (amended): when the weights file of the current epoch is missing,
    one iteration sleeps 60 seconds and retries the same epoch; the loop
    of [validate] never returns normally (no [break] or [return] is
    reachable): it keeps polling until it is stopped from outside or an
    exception propagates from its body; with a [SpeakerDiarizationProtocol]
    on which the DER computation never raises, it only keeps polling. *)
Theorem validate_polls_forever (isfile : Z → nat → bool) (sd : bool)
    (sad_xp : nat → py_exn + Q) (now_of : Z → Z) (s : vstate)
    (Hmissing : isfile (v_clock s) (v_epoch s) = false) :
  validate_body isfile sd sad_xp now_of s = FContinue (slept s) ∧
  (∀ fuel s0 s',
     while_true (validate_body isfile sd sad_xp now_of) fuel s0 ≠ Returned s') ∧
  (∀ fuel s0,
     (∃ s', while_true (validate_body isfile sd sad_xp now_of) fuel s0 = Pending s') ∨
     (∃ e s', while_true (validate_body isfile sd sad_xp now_of) fuel s0 = Raised e s')) ∧
  ((∀ e, ∃ d, sad_xp e = inr d) →
   ∀ fuel s0, ∃ s', while_true (validate_body isfile true sad_xp now_of) fuel s0 = Pending s').
Proof.
  split; [unfold validate_body; rewrite Hmissing; done|].
  split; [intros; apply while_true_never_returns|]. split.
  - intros fuel s0. destruct (while_true _ fuel s0) as [s'|s'|e s'] eqn:H; eauto.
    exfalso. by apply (while_true_never_returns isfile sad_xp now_of sd fuel s0 s').
  - intros Hok fuel. induction fuel as [|fuel IH]; intros s0; simpl; [eauto|].
    destruct (validate_body_sd_ok isfile sad_xp now_of s0 Hok) as [s1 H].
    rewrite H. apply IH.
Qed.

Lemma validate_polls_forever_witness :
  isfile_never 0 0 = false ∧
  validate_body isfile_never false (λ _, inr 0%Q) (λ t, t) (validate_start 0 []) =
    FContinue (slept (validate_start 0 [])) ∧
  (∀ fuel s0 s',
     while_true (validate_body isfile_never false (λ _, inr 0%Q) (λ t, t)) fuel s0
       ≠ Returned s') ∧
  (∀ fuel s0,
     (∃ s', while_true (validate_body isfile_never false (λ _, inr 0%Q) (λ t, t)) fuel s0
              = Pending s') ∨
     (∃ e s', while_true (validate_body isfile_never false (λ _, inr 0%Q) (λ t, t)) fuel s0
              = Raised e s')) ∧
  ((∀ e : nat, ∃ d, @inr py_exn Q 0%Q = inr d) →
   ∀ fuel s0, ∃ s',
     while_true (validate_body isfile_never true (λ _, inr 0%Q) (λ t, t)) fuel s0
       = Pending s').
Proof.
  split; [reflexivity|].
  apply (validate_polls_forever isfile_never false (λ _, inr 0%Q) (λ t, t)
           (validate_start 0 [])).
  reflexivity.
Defined.

(** ** C10 *)

(** C10: when the protocol is not a [SpeakerDiarizationProtocol], [der]
    is never assigned: [validate] either still polls or has raised
    [UnboundLocalError] on [der], and der.txt stays empty; as soon as the
    first weights file is there, the first iteration raises. *)
Theorem validate_requires_sd_protocol (isfile : Z → nat → bool)
    (sad_xp : nat → py_exn + Q) (now_of : Z → Z) (clock0 : Z) (prior : list der_line)
    (Hfirst : isfile clock0 0 = true) :
  (∀ fuel,
     let o := validate isfile false sad_xp now_of fuel clock0 prior in
     v_der_txt (outcome_state o) = [] ∧
     ((∃ s, o = Pending s) ∨ (∃ s, o = Raised (UnboundLocalError "der") s))) ∧
  (∃ s, validate isfile false sad_xp now_of 1 clock0 prior =
          Raised (UnboundLocalError "der") s ∧ v_der_txt s = []).
Proof.
  split.
  - intros fuel. unfold validate.
    destruct (while_true_not_sd isfile sad_xp now_of fuel (validate_start clock0 prior))
      as [[s [-> Hs]]|[s [-> Hs]]]; try done; simpl; eauto.
  - unfold validate, validate_start. simpl.
    unfold validate_body. simpl. rewrite Hfirst. simpl. eauto.
Qed.

Lemma validate_requires_sd_protocol_witness :
  isfile_always 0 0 = true ∧
  (∃ s, validate isfile_always false (λ _, inr 0%Q) (λ t, t) 1 0 [] =
          Raised (UnboundLocalError "der") s ∧ v_der_txt s = []).
Proof.
  split; [reflexivity|].
  apply (validate_requires_sd_protocol isfile_always (λ _, inr 0%Q) (λ t, t) 0 []).
  reflexivity.
Defined.

(** ** The objective function of [tune] and its prediction cache *)

Section ObjectiveProofs.

Context {Item Ref Uem Soft Hard : Type}.
Variable uri_of : Item -> string.
Variable annotation_of : Item -> option Ref.
Variable annotated_of : Item -> option Uem.
Variable extent : Ref -> Uem.
Variable agg : nat -> Item -> Soft.
Variable binarize : Q -> Q -> Soft -> Hard.
Variable der_comps : Ref -> Hard -> Uem -> comps.

Local Abbreviation loop :=
  (objective_loop uri_of annotation_of annotated_of extent agg binarize der_comps).

(** The loop only adds entries for uris not yet in the cache. *)
Lemma objective_loop_mono (epoch : nat) (onset offset : Q)
    (dev : list Item) (cache cache' : gmap string Soft) (error : comps) r :
  loop epoch onset offset cache error dev = (r, cache') → cache ⊆ cache'.
Proof.
  revert cache error. induction dev as [|x dev IH]; intros cache error H; simpl in H.
  - by injection H as _ <-.
  - destruct (annotation_of x) as [reference|]; [|by injection H as _ <-].
    destruct (cache !! uri_of x) eqn:Hc.
    + eapply IH. exact H.
    + etrans; [apply insert_subseteq, Hc|]. eapply IH. exact H.
Qed.

(** Started from any cache between the initial and the final one, the
    loop returns the same result and the same final cache. *)
Lemma objective_loop_between (epoch : nat) (onset offset : Q)
    (dev : list Item) (cache d cache' : gmap string Soft) (error : comps) r :
  loop epoch onset offset cache error dev = (r, cache') →
  cache ⊆ d → d ⊆ cache' →
  loop epoch onset offset d error dev = (r, cache').
Proof.
  revert cache d error. induction dev as [|x dev IH]; intros cache d error H Hcd Hdc';
    simpl in H |- *.
  - injection H as <- <-. f_equal. by apply (anti_symm (⊆)).
  - destruct (annotation_of x) as [reference|].
    2:{ injection H as <- <-. f_equal. by apply (anti_symm (⊆)). }
    destruct (cache !! uri_of x) as [p|] eqn:Hc.
    + rewrite (lookup_weaken cache d _ p Hc Hcd). eapply IH; eauto.
    + pose proof (objective_loop_mono _ _ _ _ _ _ _ _ H) as Hmono.
      assert (Hc' : cache' !! uri_of x = Some (agg epoch x)).
      { eapply lookup_weaken; [|exact Hmono]. apply lookup_insert_eq. }
      destruct (d !! uri_of x) as [q|] eqn:Hd.
      * assert (q = agg epoch x) as ->.
        { pose proof (lookup_weaken d cache' _ q Hd Hdc'). congruence. }
        eapply IH; [exact H| |done]. by apply insert_subseteq_l.
      * eapply IH; [exact H| |]. { by apply insert_mono. }
        by apply insert_subseteq_l.
Qed.

(** C9: evaluating the objective function a second time on the same
    parameters, with the prediction cache the first evaluation left
    behind, returns the same score (or the same exception) and leaves the
    cache unchanged; for a given cache and development subset the score
    is a function of (epoch, onset, offset). *)
Theorem objective_function_deterministic
    (predictions : gmap nat (gmap string Soft)) (dev : list Item)
    (parameters : nat * Q * Q) :
  let f := objective_function uri_of annotation_of annotated_of extent agg
             binarize der_comps in
  f (f predictions dev parameters).2 dev parameters =
  f predictions dev parameters.
Proof.
  intros f. subst f. destruct parameters as [[epoch onset] offset].
  unfold objective_function.
  destruct (loop epoch onset offset (default ∅ (predictions !! epoch)) comps_zero dev)
    as [r cache'] eqn:H.
  simpl. rewrite lookup_insert_eq. simpl.
  rewrite (objective_loop_between _ _ _ _ _ cache' _ _ _ H).
  - by rewrite insert_insert_eq.
  - eapply objective_loop_mono. exact H.
  - done.
Qed.

End ObjectiveProofs.

(** ** The scoring loop of [test] (apply mode) *)

Lemma eval_lines_app (l1 l2 : list apply_effect) :
  eval_lines (l1 ++ l2) = eval_lines l1 ++ eval_lines l2.
Proof. apply omap_app. Qed.

Lemma ratio_or_one_nonneg (c : comps) :
  Qle 0 (c_num c) → Qle 0 (c_den c) → Qle 0 (ratio_or_one c).
Proof.
  intros Hn Hd. unfold ratio_or_one.
  destruct (Qeq_dec (c_den c) 0) as [|Hne]; [discriminate|].
  apply Qle_shift_div_l; [|lra].
  destruct (Qle_lt_or_eq _ _ Hd) as [|Heq]; [done|]. by destruct Hne.
Qed.

(** [f_measure] does not raise on non-negative precision and recall when
    [beta] is not 0. *)
Lemma f_measure_nonneg (p r beta : Q) :
  Qle 0 p → Qle 0 r → ¬ beta == 0 → f_measure p r beta = inr (f_measure_value p r beta).
Proof.
  intros Hp Hr Hb. unfold f_measure, f_measure_value.
  destruct (Qeq_dec (p + r) 0) as [|Hpr]; [done|].
  destruct (Qeq_dec (beta * beta * p + r) 0) as [Hd|]; [|done].
  exfalso. apply Hpr.
  assert (Hbb : (0 < beta * beta)%Q).
  { destruct (Qlt_le_dec 0 beta) as [Hpos|Hle]; [nra|].
    destruct (Qle_lt_or_eq _ _ Hle) as [Hneg|]; [nra|]. by destruct Hb. }
  assert (Hbp : (0 <= beta * beta * p)%Q) by (apply Qmult_le_0_compat; lra).
  assert (Hr0 : r == 0) by lra.
  assert (Hp0 : beta * beta * p == 0) by lra.
  destruct (Qmult_integral _ _ Hp0) as [|Hp1]; lra.
Qed.

Section ApplyProofs.

Context {Item Ref Uem Soft Hard : Type}.
Variable uri_of : Item -> string.
Variable annotation_of : Item -> option Ref.
Variable annotated_of : Item -> option Uem.
Variable agg_test : Item -> Soft.
Variable binarize_test : Soft -> Hard.
Variable prec_comps : Ref -> Hard -> Uem -> comps.
Variable rec_comps : Ref -> Hard -> Uem -> comps.
Variable beta : Q.

Local Abbreviation items pk :=
  (apply_items uri_of annotation_of annotated_of agg_test binarize_test
     prec_comps rec_comps beta pk).
Local Abbreviation sc :=
  (scored uri_of annotation_of annotated_of agg_test binarize_test
     prec_comps rec_comps).

Lemma apply_items_spec (files : list Item) (s : apply_state) :
  (∀ reference hard uem,
     f_measure (ratio_or_one (prec_comps reference hard uem))
       (ratio_or_one (rec_comps reference hard uem)) beta =
     inr (f_measure_value (ratio_or_one (prec_comps reference hard uem))
            (ratio_or_one (rec_comps reference hard uem)) beta)) →
  (items None files s).1 = None ∧
  a_precision (items None files s).2 =
    fold_left comps_add (map (λ x, x.1.2) (sc files)) (a_precision s) ∧
  a_recall (items None files s).2 =
    fold_left comps_add (map (λ x, x.2) (sc files)) (a_recall s) ∧
  a_fscore (items None files s).2 = a_fscore s ++ map (f_of beta) (sc files) ∧
  eval_lines (a_log (items None files s).2) =
    eval_lines (a_log s) ++ map (per_file_line beta) (sc files).
Proof.
  intros Hfm. revert s. induction files as [|x files IH]; intros s; simpl.
  - rewrite !app_nil_r. done.
  - unfold scored at 1 2 3 4. simpl.
    destruct (annotation_of x) as [reference|], (annotated_of x) as [uem|];
      [rewrite Hfm|..]; fold (sc files);
      match goal with
      | |- context [items None files ?s'] =>
          destruct (IH s') as (H0 & Hp & Hr & Hf & Hl); rewrite H0, Hp, Hr, Hf, Hl
      end; simpl;
      rewrite ?eval_lines_app, <-?app_assoc; done.
Qed.

Lemma apply_items_nonneg (files : list Item) (s : apply_state) :
  ¬ beta == 0 →
  (∀ reference hard uem,
     Qle 0 (c_num (prec_comps reference hard uem)) ∧ Qle 0 (c_den (prec_comps reference hard uem)) ∧
     Qle 0 (c_num (rec_comps reference hard uem)) ∧ Qle 0 (c_den (rec_comps reference hard uem))) →
  (items None files s).1 = None ∧
  a_precision (items None files s).2 =
    fold_left comps_add (map (λ x, x.1.2) (sc files)) (a_precision s) ∧
  a_recall (items None files s).2 =
    fold_left comps_add (map (λ x, x.2) (sc files)) (a_recall s) ∧
  a_fscore (items None files s).2 = a_fscore s ++ map (f_of beta) (sc files) ∧
  eval_lines (a_log (items None files s).2) =
    eval_lines (a_log s) ++ map (per_file_line beta) (sc files).
Proof.
  intros Hb Hnn. apply apply_items_spec. intros reference hard uem.
  destruct (Hnn reference hard uem) as (H1 & H2 & H3 & H4).
  apply f_measure_nonneg; [by apply ratio_or_one_nonneg..|done].
Qed.

End ApplyProofs.

(** C1 (as stated, refuted): as written, [test] raises [NameError] on line
    521 and appends nothing to eval.txt; and once the scoring loop runs to
    completion, the f-measure of the "ALL" line is the mean of the per-file
    f-measures, not the f-measure of the micro-averaged precision and
    recall: on two files it is 3/4 while the micro-averaged precision 1/2
    and recall 1 give 2/3. *)
Lemma apply_all_f_measure_not_micro :
  ex_test_run = (Some (NameError "epoch"), []) ∧
  ∃ l, last (eval_lines ex_apply.2) = Some l ∧ el_uri l = "ALL" ∧
       el_precision l == 1#2 ∧ el_recall l == 1 ∧
       ∃ f, el_f_measure l = Some f ∧ f == 3#4 ∧
            f_measure_value (el_precision l) (el_recall l) 1 == 2#3 ∧
            ¬ f == f_measure_value (el_precision l) (el_recall l) 1.
Proof.
  split; [vm_compute; reflexivity|].
  eexists. split; [vm_compute; reflexivity|].
  split; [reflexivity|]. split; [reflexivity|]. split; [reflexivity|].
  eexists. split; [reflexivity|]. split; [reflexivity|]. split; [reflexivity|].
  vm_compute. discriminate.
Qed.

(** C1 (amended): when the scoring loop of [test] runs to completion
    ([pickle.dump] succeeds, and [f_measure] does not raise, which holds
    for non-negative metric components and [beta] not 0), eval.txt
    receives one line per scored file and then the "ALL" line, whose
    precision and recall are computed from the summed components of all
    scored files (micro-average) and whose f-measure is the arithmetic
    mean of the per-file f-measures (macro-average). *)
Theorem apply_all_line
    {Item Ref Uem Soft Hard : Type} (uri_of : Item → string)
    (annotation_of : Item → option Ref) (annotated_of : Item → option Uem)
    (agg_test : Item → Soft) (binarize_test : Soft → Hard)
    (prec_comps rec_comps : Ref → Hard → Uem → comps) (beta : Q)
    (pickle_dump : option py_exn) (files : list Item)
    (Hpickle : pickle_dump = None) (Hbeta : ¬ beta == 0)
    (Hnonneg : ∀ reference hard uem,
       Qle 0 (c_num (prec_comps reference hard uem)) ∧ Qle 0 (c_den (prec_comps reference hard uem)) ∧
       Qle 0 (c_num (rec_comps reference hard uem)) ∧ Qle 0 (c_den (rec_comps reference hard uem))) :
  let sc := scored uri_of annotation_of annotated_of agg_test binarize_test
              prec_comps rec_comps files in
  let run := apply_scoring uri_of annotation_of annotated_of agg_test
               binarize_test prec_comps rec_comps beta pickle_dump files in
  run.1 = None ∧
  eval_lines run.2 =
  map (per_file_line beta) sc ++
  [{| el_uri := "ALL";
      el_precision := ratio_or_one (fold_left comps_add (map (λ x, x.1.2) sc) comps_zero);
      el_recall := ratio_or_one (fold_left comps_add (map (λ x, x.2) sc) comps_zero);
      el_f_measure := mean (map (f_of beta) sc) |}].
Proof.
  intros sc run. subst pickle_dump. unfold run, apply_scoring.
  destruct (apply_items_nonneg uri_of annotation_of annotated_of agg_test
              binarize_test prec_comps rec_comps beta files
              {| a_precision := comps_zero; a_recall := comps_zero;
                 a_fscore := []; a_log := [] |} Hbeta Hnonneg)
    as (H0 & Hp & Hr & Hf & Hl).
  destruct (apply_items _ _ _ _ _ _ _ _ _ _ _) as [[e|] s'] eqn:Hrun;
    simpl in H0; [discriminate|].
  simpl in *. split; [done|].
  rewrite eval_lines_app, Hl, Hp, Hr, Hf. simpl. done.
Qed.

(** ** C8 *)

(** C8 (code defect): a test file without ['annotation'] or ['annotated']
    is never reached, let alone skipped: [test] raises [NameError] on line
    521, before the loop, whatever the files and tune.yml; and where
    [pickle.dump] into the file opened with ['w'] raises (Python 3), the
    loop raises at that file before its keys are looked up. The tune-mode
    part holds: an exception of [plot_objective] is swallowed and the
    callback still writes tune.yml, the convergence and evaluation plots
    and tune.gz. *)
Theorem test_unannotated_name_error
    {Item Ref Uem Soft Hard : Type} (tune : tune_yml) (uri_of : Item → string)
    (annotation_of : Item → option Ref) (annotated_of : Item → option Uem)
    (agg_test : Item → Soft) (binarize_test : Soft → Hard)
    (prec_comps rec_comps : Ref → Hard → Uem → comps) (beta : Q)
    (pickle_dump : option py_exn) (test_file : Item) (files : list Item)
    (Hmissing : annotation_of test_file = None ∨ annotated_of test_file = None)
    (nb_epoch : nat) (e : py_exn) (res : opt_result)
    (epoch : Z) (onset offset : Q)
    (Hx : res_x res = Some (epoch, onset, offset))
    (Htenth : length (res_func_vals res) mod 10 = 0) :
  test_run module_globals tune uri_of annotation_of annotated_of agg_test
    binarize_test prec_comps rec_comps beta pickle_dump (test_file :: files) =
    (Some (NameError "epoch"), []) ∧
  (∀ err s, apply_items uri_of annotation_of annotated_of agg_test binarize_test
              prec_comps rec_comps beta (Some err) (test_file :: files) s = (Some err, s)) ∧
  callback nb_epoch (Some e) res =
    [WriteTuneYml {| ty_nb_epoch := nb_epoch; ty_epoch := epoch;
                     ty_onset := onset; ty_offset := offset |};
     SavePng "convergence.png"; SavePng "evaluation.png"; DumpTuneGz].
Proof.
  split; [|split].
  - unfold test_run.
    assert (H : test_weights_epoch module_globals tune = inl (NameError "epoch"))
      by (vm_compute; reflexivity).
    by rewrite H.
  - intros err s. done.
  - unfold callback. rewrite Hx, Htenth. done.
Qed.

Lemma test_unannotated_name_error_witness :
  ((λ _ : nat, @None unit) 7 = None ∨ (λ _ : nat, Some tt) 7 = None) ∧
  res_x ex_res10 = Some (2%Z, 1#2, 1#4) ∧
  length (res_func_vals ex_res10) mod 10 = 0 ∧
  test_run module_globals ex_tune (λ _ : nat, "x") (λ _, @None unit) (λ _, Some tt)
    (λ i, i) (λ h, h) (λ _ _ _, comps_zero) (λ _ _ _, comps_zero) 1 None [7] =
    (Some (NameError "epoch"), []) ∧
  (∀ err s, apply_items (λ _ : nat, "x") (λ _, @None unit) (λ _, Some tt) (λ i, i)
              (λ h, h) (λ _ _ _, comps_zero) (λ _ _ _, comps_zero) 1 (Some err) [7] s =
            (Some err, s)) ∧
  callback 5 (Some PlotError) ex_res10 =
    [WriteTuneYml {| ty_nb_epoch := 5; ty_epoch := 2; ty_onset := 1#2;
                     ty_offset := 1#4 |};
     SavePng "convergence.png"; SavePng "evaluation.png"; DumpTuneGz].
Proof.
  split; [left; reflexivity|]. split; [reflexivity|]. split; [reflexivity|].
  apply (test_unannotated_name_error ex_tune (λ _ : nat, "x") (λ _, @None unit)
           (λ _, Some tt) (λ i, i) (λ h, h) (λ _ _ _, comps_zero)
           (λ _ _ _, comps_zero) 1 None 7 [] (or_introl eq_refl) 5 PlotError
           ex_res10 2 (1#2) (1#4)); reflexivity.
Defined.

(** ** C2 *)

(** C2 (code defect): line 521 formats the weights path with the name
    [epoch], which [test] never assigns and the module never binds; the
    tuned epoch in the dict [tune] read from tune.yml is not used, and the
    lookup raises [NameError] before any weights file is loaded, whatever
    tune.yml contains. *)
Theorem test_weights_epoch_name_error (tune : tune_yml) :
  test_weights_epoch module_globals tune = inl (NameError "epoch") ∧
  test_weights_epoch module_globals tune ≠ spec_weights_epoch tune.
Proof.
  assert (H : test_weights_epoch module_globals tune = inl (NameError "epoch"))
    by (vm_compute; reflexivity).
  split; [done|]. rewrite H. unfold spec_weights_epoch. discriminate.
Qed.

Lemma callback_effects_witness :
  length [(0%Z, 1#2, 1#2); (1%Z, 1#4, 3#4)] = length [1#2; 1#4] ∧ 1 ≤ 1 ∧
  1 ≤ length [1#2; 1#4] ∧
  let eff := callback 4 None
               (res_after 1 [1#2; 1#4] [(0%Z, 1#2, 1#2); (1%Z, 1#4, 3#4)]) in
  (∃ j m epoch onset offset,
      j < 1 ∧ [1#2; 1#4] !! j = Some m ∧ (∀ v, v ∈ take 1 [1#2; 1#4] → Qle m v) ∧
      [(0%Z, 1#2, 1#2); (1%Z, 1#4, 3#4)] !! j = Some (epoch, onset, offset) ∧
      WriteTuneYml {| ty_nb_epoch := 4; ty_epoch := epoch;
                      ty_onset := onset; ty_offset := offset |} ∈ eff) ∧
  SavePng "convergence.png" ∈ eff ∧
  (SavePng "evaluation.png" ∈ eff ↔ 1 mod 10 = 0) ∧
  (DumpTuneGz ∈ eff ↔ 1 mod 10 = 0) ∧
  (SavePng "objective.png" ∈ eff ↔ 1 mod 10 = 0 ∧ @None py_exn = None).
Proof.
  split; [reflexivity|]. split; [lia|]. split; [simpl; lia|].
  apply (callback_effects 4 None [1#2; 1#4] [(0%Z, 1#2, 1#2); (1%Z, 1#4, 3#4)] 1);
    simpl; [reflexivity | lia | lia].
Defined.

(** ** Extra: paths *)

Lemma list_ascii_of_string_append (s1 s2 : string) :
  String.list_ascii_of_string (String.append s1 s2) =
  String.list_ascii_of_string s1 ++ String.list_ascii_of_string s2.
Proof. induction s1 as [|c s1 IH]; simpl; [done|]. by rewrite IH. Qed.

Lemma rfind_from_app (l1 l2 : list ascii) (c : ascii) (i : nat) (acc : Z) :
  rfind_from (l1 ++ l2) c i acc =
  rfind_from l2 c (i + length l1) (rfind_from l1 c i acc).
Proof.
  revert i acc. induction l1 as [|x l1 IH]; intros i acc; simpl.
  - by rewrite Nat.add_0_r.
  - rewrite IH. by replace (S i + length l1) with (i + S (length l1)) by lia.
Qed.

Lemma rfind_from_absent (l : list ascii) (c : ascii) (i : nat) (acc : Z) :
  c ∉ l → rfind_from l c i acc = acc.
Proof.
  revert i acc. induction l as [|x l IH]; intros i acc Hc; simpl; [done|].
  destruct (ascii_dec x c) as [->|]; [by destruct Hc; left|].
  apply IH. intros Hin. apply Hc. by right.
Qed.

(** One [dirname] step removes a last component without a slash from a
    directory that does not end with a slash. *)
Lemma dirname_list_step (d seg : list ascii) (x : ascii) :
  last d = Some x → x ≠ slash → slash ∉ seg →
  dirname_list (d ++ slash :: seg) = d.
Proof.
  intros Hlast Hx Hseg. unfold dirname_list, rfind.
  rewrite rfind_from_app. simpl.
  destruct (ascii_dec slash slash) as [_|]; [|done].
  rewrite rfind_from_absent by done.
  replace (Z.to_nat (Z.of_nat (length d) + 1)) with (S (length d)) by lia.
  assert (Htake : take (S (length d)) (d ++ slash :: seg) = d ++ [slash]).
  { rewrite take_app, take_ge by lia.
    replace (S (length d) - length d) with 1 by lia. done. }
  rewrite Htake.
  apply last_Some in Hlast as [d' ->].
  assert (Hall : not_all_char slash ((d' ++ [x]) ++ [slash]) = true).
  { unfold not_all_char. apply negb_true_iff.
    apply not_true_iff_false. intros Hf. apply forallb_forall with (x := x) in Hf.
    - apply bool_decide_eq_true in Hf. done.
    - apply in_or_app. left. apply in_or_app. right. by left. }
  rewrite Hall. rewrite bool_decide_true by (destruct d'; discriminate).
  unfold rstrip_char. rewrite !rev_app_distr. simpl.
  destruct (ascii_dec slash slash) as [_|]; [|done].
  destruct (ascii_dec x slash) as [|_]; [done|].
  by rewrite <- rev_unit, rev_involutive.
Qed.

Lemma dirname_dirname (d a b : list ascii) (x : ascii) :
  last d = Some x → x ≠ slash → a ≠ [] → slash ∉ a → slash ∉ b →
  dirname_list (dirname_list (d ++ slash :: a ++ slash :: b)) = d.
Proof.
  intros Hd Hx Ha Has Hb.
  destruct (last a) as [z|] eqn:Hz; [|by apply last_None in Hz].
  assert (Hza : z ∈ a).
  { apply last_Some in Hz as [a' ->]. apply list_elem_of_In, in_or_app. right. by left. }
  rewrite app_comm_cons, app_assoc.
  rewrite (dirname_list_step _ _ z); [by apply (dirname_list_step _ _ x)| |by intros ->|done].
  rewrite last_app, last_cons, Hz. done.
Qed.

(** [dirname] applied twice to [d/a/b] gives [d], when [d] does not end
    with a slash and [a], [b] hold none. *)
Lemma dirname_dirname_string (d : string) (a b : list ascii) (x : ascii) :
  last (String.list_ascii_of_string d) = Some x → x ≠ slash → a ≠ [] →
  slash ∉ a → slash ∉ b →
  dirname (dirname (String.string_of_list_ascii
    (String.list_ascii_of_string d ++ slash :: a ++ slash :: b))) = d.
Proof.
  intros Hd Hx Ha Has Hb. unfold dirname.
  rewrite !String.list_ascii_of_string_of_list_ascii.
  rewrite (dirname_dirname _ _ _ x) by done.
  apply String.string_of_list_ascii_of_string.
Qed.

Lemma slash_not_in_dotted (p s : string) :
  slash ∉ String.list_ascii_of_string p → slash ∉ String.list_ascii_of_string s →
  slash ∉ String.list_ascii_of_string (String.append p (String.append "." s)).
Proof.
  intros Hp Hs. rewrite !list_ascii_of_string_append.
  apply not_elem_of_app. split; [done|]. simpl.
  apply not_elem_of_cons. split; [done|done].
Qed.

(** [test] (line 496) recovers the train directory from a tune directory
    laid out by tune mode (line 629). *)
Lemma test_train_dir_tune_dir_of (T P S : string) (x : ascii) :
  last (String.list_ascii_of_string T) = Some x → x ≠ slash →
  slash ∉ String.list_ascii_of_string P → slash ∉ String.list_ascii_of_string S →
  test_train_dir (tune_dir_of T P S) = T.
Proof.
  intros HT Hx HP HS. unfold test_train_dir.
  rewrite <- (String.string_of_list_ascii_of_string (tune_dir_of T P S)).
  assert (Hl : String.list_ascii_of_string (tune_dir_of T P S) =
    String.list_ascii_of_string T ++ slash :: String.list_ascii_of_string "tune" ++
      slash :: String.list_ascii_of_string (String.append P (String.append "." S))).
  { unfold tune_dir_of. rewrite !list_ascii_of_string_append. reflexivity. }
  rewrite Hl.
  apply (dirname_dirname_string _ _ _ x); [done|done|discriminate| |].
  - simpl. set_solver.
  - by apply slash_not_in_dotted.
Qed.

Lemma config_yml_train_dir_of (E P S : string) (x : ascii) :
  last (String.list_ascii_of_string E) = Some x → x ≠ slash →
  slash ∉ String.list_ascii_of_string P → slash ∉ String.list_ascii_of_string S →
  config_yml_of_train_dir (train_dir_of E P S) = String.append E "/config.yml".
Proof.
  intros HE Hx HP HS. unfold config_yml_of_train_dir. f_equal.
  rewrite <- (String.string_of_list_ascii_of_string (train_dir_of E P S)).
  assert (Hl : String.list_ascii_of_string (train_dir_of E P S) =
    String.list_ascii_of_string E ++ slash :: String.list_ascii_of_string "train" ++
      slash :: String.list_ascii_of_string (String.append P (String.append "." S))).
  { unfold train_dir_of. rewrite !list_ascii_of_string_append. reflexivity. }
  rewrite Hl.
  apply (dirname_dirname_string _ _ _ x); [done|done|discriminate| |].
  - simpl. set_solver.
  - by apply slash_not_in_dotted.
Qed.

(** Extra X1: given a tune directory [T/tune/P.S] as tune mode builds it
    (line 629), [test] takes [T] back as its train directory (line 496),
    when [T] does not end with a slash and [P], [S] hold no slash. *)
Theorem test_recovers_train_dir (T P S : string) (x : ascii)
    (HT : last (String.list_ascii_of_string T) = Some x) (Hx : x ≠ "/"%char)
    (HP : "/"%char ∉ String.list_ascii_of_string P)
    (HS : "/"%char ∉ String.list_ascii_of_string S) :
  test_train_dir (tune_dir_of T P S) = T.
Proof. by apply (test_train_dir_tune_dir_of _ _ _ x). Qed.

(** Extra X2: for a train directory [E/train/P.S] laid out as the usage
    text describes, [validate] and [tune] read [E/config.yml] (lines
    284-285, 378-379), the file train mode reads (line 191). *)
Theorem train_dir_config_yml (E P S : string) (x : ascii)
    (HE : last (String.list_ascii_of_string E) = Some x) (Hx : x ≠ "/"%char)
    (HP : "/"%char ∉ String.list_ascii_of_string P)
    (HS : "/"%char ∉ String.list_ascii_of_string S) :
  config_yml_of_train_dir (train_dir_of E P S) = String.append E "/config.yml".
Proof. by apply (config_yml_train_dir_of _ _ _ x). Qed.

(** Extra X3: on a tune directory laid out by tune mode from train
    directory [T], [test] reads the same config.yml as [validate] and
    [tune] on [T] (lines 496-499 against 284-285 and 378-379). *)
Theorem test_config_yml_tune_dir (T P S : string) (x : ascii)
    (HT : last (String.list_ascii_of_string T) = Some x) (Hx : x ≠ "/"%char)
    (HP : "/"%char ∉ String.list_ascii_of_string P)
    (HS : "/"%char ∉ String.list_ascii_of_string S) :
  test_config_yml (tune_dir_of T P S) = config_yml_of_train_dir T.
Proof.
  unfold test_config_yml. by rewrite (test_train_dir_tune_dir_of _ _ _ x).
Qed.

(** ** Extra: [TRAIN_DIR] in train mode *)

(** Extra X4: formatting [TRAIN_DIR] in train mode (lines 605-609) raises
    [KeyError: 'path'] whatever the experiment directory, protocol and
    subset, since the template has a [{path}] field no argument fills. *)
Theorem main_train_dir_key_error (experiment_dir protocol subset : string) :
  main_train_dir experiment_dir protocol subset = Some (inl (KeyError "path")).
Proof. reflexivity. Qed.

(** ** Extra: [speech_activity_detection_xp] *)

Section XpProofs.

Context {Item Ref Uem Soft Hard : Type}.
Variable uri_of : Item -> string.
Variable annotation_of : Item -> option Ref.
Variable annotated_of : Item -> option Uem.
Variable extent : Ref -> Uem.
Variable aggregation_apply : Item -> Soft.
Variable binarize : Q -> Q -> Soft -> Hard.
Variable der_comps : Ref -> Hard -> Uem -> comps.

Local Abbreviation preds := (xp_predictions uri_of aggregation_apply).
Local Abbreviation score :=
  (xp_score uri_of annotation_of annotated_of extent binarize der_comps).

Lemma xp_predictions_app (l1 l2 : list Item) (m : gmap string Soft) :
  preds (l1 ++ l2) m = preds l2 (preds l1 m).
Proof. revert m. induction l1 as [|x l1 IH]; intros m; simpl; [done|apply IH]. Qed.

Lemma xp_predictions_keep (l : list Item) (m : gmap string Soft) (k : string) :
  is_Some (m !! k) → is_Some (preds l m !! k).
Proof.
  revert m. induction l as [|x l IH]; intros m Hk; simpl; [done|].
  apply IH. destruct (decide (uri_of x = k)) as [->|].
  - by rewrite lookup_insert_eq.
  - by rewrite lookup_insert_ne.
Qed.

Lemma xp_predictions_all (l : list Item) (m : gmap string Soft) (it : Item) :
  it ∈ l → is_Some (preds l m !! uri_of it).
Proof.
  revert m. induction l as [|x l IH]; intros m Hin; simpl;
    [by apply not_elem_of_nil in Hin|].
  apply elem_of_cons in Hin as [->|Hin]; [|by apply IH].
  apply xp_predictions_keep. by rewrite lookup_insert_eq.
Qed.

Lemma xp_predictions_last (l : list Item) (m : gmap string Soft) (it : Item) :
  preds (l ++ [it]) m !! uri_of it = Some (aggregation_apply it).
Proof. rewrite xp_predictions_app. simpl. apply lookup_insert_eq. Qed.

Lemma xp_score_annotated (onset offset : Q) (p : gmap string Soft)
    (der : option Q) (l : list Item) (it : Item) :
  (∀ i, i ∈ l → is_Some (annotation_of i)) →
  (∀ i, i ∈ l → is_Some (p !! uri_of i)) →
  score onset offset p der (l ++ [it]) = score onset offset p None [it].
Proof.
  revert der. induction l as [|x l IH]; intros der Hann Hp; simpl.
  - destruct (annotation_of it); [|done].
    by destruct (p !! uri_of it).
  - destruct (Hann x) as [r Hr]; [by left|]. rewrite Hr.
    destruct (Hp x) as [q Hq]; [by left|]. rewrite Hq.
    apply IH; intros i Hi; [apply Hann|apply Hp]; by right.
Qed.

Lemma xp_score_unannotated (onset offset : Q) (p : gmap string Soft)
    (der : option Q) (l : list Item) :
  (∀ i, i ∈ l → is_Some (p !! uri_of i)) →
  (∃ i, i ∈ l ∧ annotation_of i = None) →
  score onset offset p der l = inl (KeyError "annotation").
Proof.
  revert der. induction l as [|x l IH]; intros der Hp [i [Hi Hnone]];
    [by apply not_elem_of_nil in Hi|]. simpl.
  destruct (annotation_of x) as [r|] eqn:Hx; [|done].
  destruct (Hp x) as [q Hq]; [by left|]. rewrite Hq.
  apply IH; [intros j Hj; apply Hp; by right|].
  apply elem_of_cons in Hi as [->|Hi]; [congruence|eauto].
Qed.

(** Extra X6: on an empty subset [speech_activity_detection_xp] raises
    [UnboundLocalError] on [der] at [return abs(der), ...] (line 277). *)
Theorem xp_empty_subset (onset offset : Q) :
  speech_activity_detection_xp uri_of annotation_of annotated_of extent
    aggregation_apply binarize der_comps [] onset offset =
  inl (UnboundLocalError "der").
Proof. reflexivity. Qed.

(** Extra X7: when every file of the subset is annotated, the DER
    [speech_activity_detection_xp] returns is the absolute value of the
    detection error rate of the LAST file alone, computed from that file's
    own prediction; the earlier files do not enter it. *)
Theorem xp_der_of_last_file (onset offset : Q) (items : list Item)
    (last_item : Item) (reference : Ref)
    (Hlast : annotation_of last_item = Some reference)
    (Hann : ∀ i, i ∈ items → is_Some (annotation_of i)) :
  speech_activity_detection_xp uri_of annotation_of annotated_of extent
    aggregation_apply binarize der_comps (items ++ [last_item]) onset offset =
  inr (Qabs (der_value (der_comps reference
               (binarize onset offset (aggregation_apply last_item))
               (get_annotated annotated_of extent last_item reference))),
       onset, offset).
Proof.
  unfold speech_activity_detection_xp.
  rewrite xp_score_annotated.
  - simpl. rewrite Hlast, xp_predictions_last. done.
  - done.
  - intros i Hi. apply xp_predictions_all, elem_of_app. by left.
Qed.

(** Extra X8: if some file of the subset has no ['annotation'] key,
    [speech_activity_detection_xp] raises [KeyError: 'annotation'] (line
    272): every prediction exists, so the first unannotated file stops it. *)
Theorem xp_unannotated_key_error (onset offset : Q) (items : list Item)
    (Hmissing : ∃ i, i ∈ items ∧ annotation_of i = None) :
  speech_activity_detection_xp uri_of annotation_of annotated_of extent
    aggregation_apply binarize der_comps items onset offset =
  inl (KeyError "annotation").
Proof.
  unfold speech_activity_detection_xp.
  rewrite xp_score_unannotated; [done| |done].
  intros i Hi. by apply xp_predictions_all.
Qed.

End XpProofs.

(** ** Extra: what the polling loop of [validate] writes *)

Lemma while_true_invariant {A} (P : A → Prop) (body : A → flow A) :
  (∀ s, P s → match body s with
              | FContinue s' | FBreak s' | FReturn s' | FRaise _ s' => P s'
              end) →
  ∀ fuel s, P s → P (outcome_state (while_true body fuel s)).
Proof.
  intros Hbody fuel. induction fuel as [|fuel IH]; intros s Hs; simpl; [done|].
  specialize (Hbody s Hs). destruct (body s); simpl; auto.
Qed.

Section ValidateInvariants.

Variable isfile : Z -> nat -> bool.
Variable sd : bool.
Variable sad_xp : nat -> py_exn + Q.
Variable now_of : Z -> Z.
Variable clock0 : Z.

(** The lines of der.txt are those of epochs [0, 1, ...], each with the
    DER of its epoch, and [ders] mirrors them. *)
Local Abbreviation lines_inv s :=
  ((v_der s = None ∨ sd = true) ∧
   map dl_epoch (v_der_txt s) = seq 0 (v_epoch s) ∧
   v_ders s = map dl_der (v_der_txt s) ∧
   (∀ l, l ∈ v_der_txt s → sad_xp (dl_epoch l) = inr (dl_der l))).

(** Each line carries the wall-clock reading taken at a time of the run
    when its weights file existed. *)
Local Abbreviation time_inv s :=
  (Z.le clock0 (v_clock s) ∧
   (∀ l, l ∈ v_der_txt s →
      ∃ t, Z.le clock0 t ∧ Z.le t (v_clock s) ∧
           isfile t (dl_epoch l) = true ∧ dl_now l = now_of t)).

Lemma validate_lines_inv (fuel : nat) (prior : list der_line) :
  lines_inv (outcome_state (validate isfile sd sad_xp now_of fuel clock0 prior)).
Proof.
  unfold validate. apply while_true_invariant.
  2:{ unfold validate_start, open_w. simpl. split; [by left|].
      split_and!; [done|done|]. intros l Hl. by apply not_elem_of_nil in Hl. }
  intros s (Hder & Hep & Hders & Hval). unfold validate_body.
  destruct (isfile (v_clock s) (v_epoch s)); simpl; [|done].
  destruct sd; simpl.
  - destruct (sad_xp (v_epoch s)) as [e|d] eqn:Hx; simpl; [done|].
    split; [by right|]. split.
    { rewrite map_app, Hep.
      change (seq 0 (v_epoch s) ++ [v_epoch s] = seq 0 (S (v_epoch s))).
      by rewrite seq_S. }
    split; [by rewrite map_app, Hders|].
    intros l Hl. apply elem_of_app in Hl as [Hl|Hl]; [by apply Hval|].
    apply list_elem_of_singleton in Hl as ->. done.
  - destruct Hder as [Hder|]; [|done]. rewrite Hder. simpl.
    split; [by left|]. done.
Qed.


End ValidateInvariants.

(** Extra X9: in [validate], der.txt holds one line per evaluated epoch,
    for epochs 0, 1, 2, ... in order with none skipped (the loop waits for
    the next epoch's weights even if later ones exist), each with the DER
    computed for its own epoch, and the list [ders] it plots holds the same
    values. This holds after any number of iterations, also when the loop
    has raised. *)
Theorem validate_der_lines_consecutive (isfile : Z → nat → bool) (sd : bool)
    (sad_xp : nat → py_exn + Q) (now_of : Z → Z) (fuel : nat) (clock0 : Z)
    (prior : list der_line) :
  let s := outcome_state (validate isfile sd sad_xp now_of fuel clock0 prior) in
  map dl_epoch (v_der_txt s) = seq 0 (v_epoch s) ∧
  v_ders s = map dl_der (v_der_txt s) ∧
  (∀ l, l ∈ v_der_txt s → sad_xp (dl_epoch l) = inr (dl_der l)).
Proof.
  destruct (validate_lines_inv isfile sd sad_xp now_of clock0 fuel prior) as (_ & H).
  exact H.
Qed.


(** ** Extra: the score of [objective_function] *)

Section ObjectiveScore.

Context {Item Ref Uem Soft Hard : Type}.
Variable uri_of : Item -> string.
Variable annotation_of : Item -> option Ref.
Variable annotated_of : Item -> option Uem.
Variable extent : Ref -> Uem.
Variable agg : nat -> Item -> Soft.
Variable binarize : Q -> Q -> Soft -> Hard.
Variable der_comps : Ref -> Hard -> Uem -> comps.

Local Abbreviation loop :=
  (objective_loop uri_of annotation_of annotated_of extent agg binarize der_comps).

(** The components one development file adds, computed from its own
    prediction. *)
Local Abbreviation file_der epoch onset offset :=
  (λ it, match annotation_of it with
         | Some reference =>
             der_comps reference (binarize onset offset (agg epoch it))
               (get_annotated annotated_of extent it reference)
         | None => comps_zero
         end).

Lemma objective_loop_score (epoch : nat) (onset offset : Q)
    (cache : gmap string Soft) (error : comps) (dev : list Item) :
  NoDup (map uri_of dev) →
  (∀ it p, it ∈ dev → cache !! uri_of it = Some p → p = agg epoch it) →
  (∀ it, it ∈ dev → is_Some (annotation_of it)) →
  (loop epoch onset offset cache error dev).1 =
    inr (fold_left comps_add (map (file_der epoch onset offset) dev) error).
Proof.
  revert cache error. induction dev as [|x dev IH]; intros cache error Hnd Hcache Hann;
    simpl; [done|].
  apply NoDup_cons in Hnd as [Hx Hnd].
  destruct (Hann x) as [reference Hr]; [by left|]. rewrite Hr.
  assert (Hrest : ∀ it, it ∈ dev → uri_of it ≠ uri_of x).
  { intros it Hit Heq. apply Hx. rewrite <- Heq. by apply list_elem_of_fmap_2. }
  destruct (cache !! uri_of x) as [p|] eqn:Hc.
  - rewrite (Hcache x p) by (try left; done).
    apply IH; [done| |].
    + intros it q Hit. apply Hcache. by right.
    + intros it Hit. apply Hann. by right.
  - apply IH; [done| |].
    + intros it q Hit. rewrite lookup_insert_ne by (symmetry; by apply Hrest).
      apply Hcache. by right.
    + intros it Hit. apply Hann. by right.
Qed.

Lemma objective_loop_unannotated (epoch : nat) (onset offset : Q)
    (cache : gmap string Soft) (error : comps) (dev : list Item) :
  (∃ it, it ∈ dev ∧ annotation_of it = None) →
  (loop epoch onset offset cache error dev).1 = inl (KeyError "annotation").
Proof.
  revert cache error. induction dev as [|x dev IH]; intros cache error [it [Hit Hnone]];
    [by apply not_elem_of_nil in Hit|]. simpl.
  destruct (annotation_of x) as [reference|] eqn:Hx; [|done].
  destruct (cache !! uri_of x); apply IH;
    (apply elem_of_cons in Hit as [->|Hit]; [congruence|eauto]).
Qed.

End ObjectiveScore.

(** Extra X11: when every development file is annotated and their uris
    are distinct, and whatever is already cached for the epoch is that
    epoch's prediction of the file, [objective_function] returns the
    detection error rate accumulated over ALL development files, each with
    the prediction of the given epoch binarized at the given onset and
    offset: the cache changes no score. *)
Theorem objective_function_score {Item Ref Uem Soft Hard : Type}
    (uri_of : Item → string) (annotation_of : Item → option Ref)
    (annotated_of : Item → option Uem) (extent : Ref → Uem)
    (agg : nat → Item → Soft) (binarize : Q → Q → Soft → Hard)
    (der_comps : Ref → Hard → Uem → comps)
    (predictions : gmap nat (gmap string Soft)) (dev : list Item)
    (epoch : nat) (onset offset : Q)
    (Huris : NoDup (map uri_of dev))
    (Hcached : ∀ it p, it ∈ dev →
       default ∅ (predictions !! epoch) !! uri_of it = Some p → p = agg epoch it)
    (Hann : ∀ it, it ∈ dev → is_Some (annotation_of it)) :
  (objective_function uri_of annotation_of annotated_of extent agg binarize
     der_comps predictions dev (epoch, onset, offset)).1 =
  inr (der_value (fold_left comps_add
    (map (λ it, match annotation_of it with
                | Some reference =>
                    der_comps reference (binarize onset offset (agg epoch it))
                      (get_annotated annotated_of extent it reference)
                | None => comps_zero
                end) dev) comps_zero)).
Proof.
  unfold objective_function.
  pose proof (objective_loop_score uri_of annotation_of annotated_of extent agg
    binarize der_comps epoch onset offset (default ∅ (predictions !! epoch))
    comps_zero dev Huris Hcached Hann) as H.
  destruct (objective_loop _ _ _ _ _ _ _ _ _ _ _ _ _) as [r cache'].
  simpl in H |- *. by rewrite H.
Qed.

(** Extra X12: if some development file has no ['annotation'] key,
    [objective_function] raises [KeyError: 'annotation'] (line 419),
    whatever the parameters and the cache. *)
Theorem objective_function_unannotated {Item Ref Uem Soft Hard : Type}
    (uri_of : Item → string) (annotation_of : Item → option Ref)
    (annotated_of : Item → option Uem) (extent : Ref → Uem)
    (agg : nat → Item → Soft) (binarize : Q → Q → Soft → Hard)
    (der_comps : Ref → Hard → Uem → comps)
    (predictions : gmap nat (gmap string Soft)) (dev : list Item)
    (parameters : nat * Q * Q)
    (Hmissing : ∃ it, it ∈ dev ∧ annotation_of it = None) :
  (objective_function uri_of annotation_of annotated_of extent agg binarize
     der_comps predictions dev parameters).1 = inl (KeyError "annotation").
Proof.
  destruct parameters as [[epoch onset] offset]. unfold objective_function.
  pose proof (objective_loop_unannotated uri_of annotation_of annotated_of extent agg
    binarize der_comps epoch onset offset (default ∅ (predictions !! epoch))
    comps_zero dev Hmissing) as H.
  destruct (objective_loop _ _ _ _ _ _ _ _ _ _ _ _ _) as [r cache'].
  simpl in H |- *. by rewrite H.
Qed.

(** ** Extra: the files [test] writes *)

Section ApplyWrites.

Context {Item Ref Uem Soft Hard : Type}.
Variable uri_of : Item -> string.
Variable annotation_of : Item -> option Ref.
Variable annotated_of : Item -> option Uem.
Variable agg_test : Item -> Soft.
Variable binarize_test : Soft -> Hard.
Variable prec_comps : Ref -> Hard -> Uem -> comps.
Variable rec_comps : Ref -> Hard -> Uem -> comps.
Variable beta : Q.

Local Abbreviation items pk :=
  (apply_items uri_of annotation_of annotated_of agg_test binarize_test
     prec_comps rec_comps beta pk).

(** The soft and hard files written, in order ([inl] a .soft.pkl, [inr] a
    .hard.json, by uri). *)
Local Abbreviation writes log :=
  (omap (λ e, match e with
              | WriteSoftPkl u => Some (inl u)
              | WriteHardJson u => Some (inr u)
              | AppendEval _ => None
              end) log).

Lemma apply_items_writes (files : list Item) (s : apply_state) :
  (∀ reference hard uem,
     f_measure (ratio_or_one (prec_comps reference hard uem))
       (ratio_or_one (rec_comps reference hard uem)) beta =
     inr (f_measure_value (ratio_or_one (prec_comps reference hard uem))
            (ratio_or_one (rec_comps reference hard uem)) beta)) →
  writes (a_log (items None files s).2) =
    writes (a_log s) ++ mjoin (map (λ it, [inl (uri_of it); inr (uri_of it)]) files).
Proof.
  intros Hfm. revert s. induction files as [|x files IH]; intros s; simpl.
  - by rewrite app_nil_r.
  - destruct (annotation_of x), (annotated_of x); [rewrite Hfm|..]; rewrite IH; simpl;
      rewrite ?omap_app; simpl; by rewrite <-?app_assoc.
Qed.

Lemma apply_items_pickle_error (err : py_exn) (files : list Item) (s : apply_state) :
  files ≠ [] → items (Some err) files s = (Some err, s).
Proof. destruct files; [done|]. done. Qed.

Lemma apply_items_noref (files : list Item) (s : apply_state) :
  (∀ it, it ∈ files → annotation_of it = None ∨ annotated_of it = None) →
  (items None files s).1 = None ∧
  a_precision (items None files s).2 = a_precision s ∧
  a_recall (items None files s).2 = a_recall s ∧
  a_fscore (items None files s).2 = a_fscore s ∧
  eval_lines (a_log (items None files s).2) = eval_lines (a_log s).
Proof.
  revert s. induction files as [|x files IH]; intros s Hnoref; simpl; [done|].
  assert (Hrest : ∀ it, it ∈ files → annotation_of it = None ∨ annotated_of it = None)
    by (intros it Hit; apply Hnoref; by right).
  assert (Hskip : match annotation_of x, annotated_of x with
                  | Some _, Some _ => False | _, _ => True end).
  { destruct (Hnoref x) as [Hx|Hx]; [by left|..]; rewrite Hx; [done|].
    by destruct (annotation_of x). }
  destruct (annotation_of x), (annotated_of x); try done;
    match goal with
    | |- context [items None files ?s'] =>
        destruct (IH s' Hrest) as (H0 & Hp & Hr & Hf & Hl)
    end;
    rewrite H0, Hp, Hr, Hf, Hl; simpl; rewrite eval_lines_app; simpl;
    by rewrite app_nil_r.
Qed.

End ApplyWrites.

(** Extra X13: when the scoring loop of [test] runs to completion
    ([pickle.dump] succeeds, as under Python 2, and [f_measure] does not
    raise), it writes, for every test file in order and whether or not it
    has a reference, its soft prediction ([{uri}.soft.pkl]) and then its
    hard prediction ([{uri}.hard.json]) (lines 548-556), and no other such
    file; when [pickle.dump] raises (as it does under Python 3 on a file
    opened with ['w']), the loop raises at the first file with no soft or
    hard prediction written. *)
Theorem apply_writes_every_file {Item Ref Uem Soft Hard : Type}
    (uri_of : Item → string) (annotation_of : Item → option Ref)
    (annotated_of : Item → option Uem) (agg_test : Item → Soft)
    (binarize_test : Soft → Hard) (prec_comps rec_comps : Ref → Hard → Uem → comps)
    (beta : Q) (files : list Item) (Hbeta : ¬ beta == 0)
    (Hnonneg : ∀ reference hard uem,
       Qle 0 (c_num (prec_comps reference hard uem)) ∧ Qle 0 (c_den (prec_comps reference hard uem)) ∧
       Qle 0 (c_num (rec_comps reference hard uem)) ∧ Qle 0 (c_den (rec_comps reference hard uem))) :
  omap (λ e, match e with
             | WriteSoftPkl u => Some (inl u)
             | WriteHardJson u => Some (inr u)
             | AppendEval _ => None
             end)
    (apply_scoring uri_of annotation_of annotated_of agg_test binarize_test
       prec_comps rec_comps beta None files).2 =
  mjoin (map (λ it, [inl (uri_of it); inr (uri_of it)]) files) ∧
  (∀ err, files ≠ [] →
     apply_scoring uri_of annotation_of annotated_of agg_test binarize_test
       prec_comps rec_comps beta (Some err) files = (Some err, [])).
Proof.
  split.
  - unfold apply_scoring.
    assert (Hfm : ∀ reference hard uem,
       f_measure (ratio_or_one (prec_comps reference hard uem))
         (ratio_or_one (rec_comps reference hard uem)) beta =
       inr (f_measure_value (ratio_or_one (prec_comps reference hard uem))
              (ratio_or_one (rec_comps reference hard uem)) beta)).
    { intros reference hard uem.
      destruct (Hnonneg reference hard uem) as (H1 & H2 & H3 & H4).
      apply f_measure_nonneg; [by apply ratio_or_one_nonneg..|done]. }
    pose proof (apply_items_writes uri_of annotation_of annotated_of agg_test
      binarize_test prec_comps rec_comps beta files
      {| a_precision := comps_zero; a_recall := comps_zero; a_fscore := []; a_log := [] |}
      Hfm) as Hw.
    destruct (apply_items _ _ _ _ _ _ _ _ _ _ _) as [[e|] s'];
      simpl in Hw |- *; [done|].
    rewrite omap_app, Hw. simpl. by rewrite app_nil_r.
  - intros err Hne. unfold apply_scoring.
    rewrite apply_items_pickle_error by done. done.
Qed.

(** Extra X14: when [pickle.dump] succeeds and no test file has both an
    ['annotation'] and an ['annotated'] key, the scoring loop of [test]
    completes and eval.txt gets the "ALL" line only, with precision 1 and
    recall 1 (nothing retrieved, nothing relevant) and the mean of no
    f-measure, NaN. *)
Theorem apply_no_reference_all_line {Item Ref Uem Soft Hard : Type}
    (uri_of : Item → string) (annotation_of : Item → option Ref)
    (annotated_of : Item → option Uem) (agg_test : Item → Soft)
    (binarize_test : Soft → Hard) (prec_comps rec_comps : Ref → Hard → Uem → comps)
    (beta : Q) (pickle_dump : option py_exn) (files : list Item)
    (Hpickle : pickle_dump = None)
    (Hnoref : ∀ it, it ∈ files → annotation_of it = None ∨ annotated_of it = None) :
  let run := apply_scoring uri_of annotation_of annotated_of agg_test binarize_test
               prec_comps rec_comps beta pickle_dump files in
  run.1 = None ∧
  eval_lines run.2 =
  [{| el_uri := "ALL"; el_precision := 1; el_recall := 1; el_f_measure := None |}].
Proof.
  intros run. subst pickle_dump. unfold run, apply_scoring.
  destruct (apply_items_noref uri_of annotation_of annotated_of agg_test binarize_test
    prec_comps rec_comps beta files
    {| a_precision := comps_zero; a_recall := comps_zero; a_fscore := []; a_log := [] |}
    Hnoref) as (H0 & Hp & Hr & Hf & Hl).
  destruct (apply_items _ _ _ _ _ _ _ _ _ _ _) as [[e|] s'];
    simpl in H0, Hp, Hr, Hf, Hl; [discriminate|].
  simpl. split; [done|].
  rewrite eval_lines_app, Hl, Hp, Hr, Hf. reflexivity.
Qed.

(** ** Concrete instances of the theorems with hypotheses *)

Lemma test_recovers_train_dir_witness :
  last (String.list_ascii_of_string "exp") = Some "p"%char ∧ "p"%char ≠ "/"%char ∧
  ("/"%char ∉ String.list_ascii_of_string "Etape.SpeakerDiarization.TV") ∧
  ("/"%char ∉ String.list_ascii_of_string "development") ∧
  test_train_dir (tune_dir_of "exp" "Etape.SpeakerDiarization.TV" "development") = "exp".
Proof.
  assert (HP : "/"%char ∉ String.list_ascii_of_string "Etape.SpeakerDiarization.TV")
    by (refine (bool_decide_unpack _ _); vm_compute; reflexivity).
  assert (HS : "/"%char ∉ String.list_ascii_of_string "development")
    by (refine (bool_decide_unpack _ _); vm_compute; reflexivity).
  split; [reflexivity|]. split; [discriminate|]. split; [exact HP|]. split; [exact HS|].
  apply (test_recovers_train_dir "exp" "Etape.SpeakerDiarization.TV" "development"
           "p"%char); [reflexivity|discriminate|exact HP|exact HS].
Defined.

Lemma train_dir_config_yml_witness :
  last (String.list_ascii_of_string "exp") = Some "p"%char ∧ "p"%char ≠ "/"%char ∧
  ("/"%char ∉ String.list_ascii_of_string "Etape.SpeakerDiarization.TV") ∧
  ("/"%char ∉ String.list_ascii_of_string "train") ∧
  config_yml_of_train_dir (train_dir_of "exp" "Etape.SpeakerDiarization.TV" "train") =
    "exp/config.yml".
Proof.
  assert (HP : "/"%char ∉ String.list_ascii_of_string "Etape.SpeakerDiarization.TV")
    by (refine (bool_decide_unpack _ _); vm_compute; reflexivity).
  assert (HS : "/"%char ∉ String.list_ascii_of_string "train")
    by (refine (bool_decide_unpack _ _); vm_compute; reflexivity).
  split; [reflexivity|]. split; [discriminate|]. split; [exact HP|]. split; [exact HS|].
  apply (train_dir_config_yml "exp" "Etape.SpeakerDiarization.TV" "train"
           "p"%char); [reflexivity|discriminate|exact HP|exact HS].
Defined.

Lemma test_config_yml_tune_dir_witness :
  last (String.list_ascii_of_string "exp/train/Etape.SpeakerDiarization.TV.train") =
    Some "n"%char ∧ "n"%char ≠ "/"%char ∧
  ("/"%char ∉ String.list_ascii_of_string "Etape.SpeakerDiarization.TV") ∧
  ("/"%char ∉ String.list_ascii_of_string "development") ∧
  test_config_yml (tune_dir_of "exp/train/Etape.SpeakerDiarization.TV.train"
                     "Etape.SpeakerDiarization.TV" "development") =
    config_yml_of_train_dir "exp/train/Etape.SpeakerDiarization.TV.train".
Proof.
  assert (HP : "/"%char ∉ String.list_ascii_of_string "Etape.SpeakerDiarization.TV")
    by (refine (bool_decide_unpack _ _); vm_compute; reflexivity).
  assert (HS : "/"%char ∉ String.list_ascii_of_string "development")
    by (refine (bool_decide_unpack _ _); vm_compute; reflexivity).
  split; [reflexivity|]. split; [discriminate|]. split; [exact HP|]. split; [exact HS|].
  apply (test_config_yml_tune_dir "exp/train/Etape.SpeakerDiarization.TV.train"
           "Etape.SpeakerDiarization.TV" "development" "n"%char);
    [reflexivity|discriminate|exact HP|exact HS].
Defined.

Lemma xp_der_of_last_file_witness :
  (∀ i : nat, i ∈ [0] → is_Some (Some tt)) ∧
  speech_activity_detection_xp (Item:=nat) (Ref:=unit) (Uem:=unit) (Soft:=nat)
    ex_uri (λ _, Some tt) (λ _, Some tt) (λ _, tt) (λ i, i) (λ _ _ s, s)
    ex_prec_comps ([0] ++ [1]) (1#2) (1#2) =
  inr (Qabs (der_value (ex_prec_comps tt 1 tt)), 1#2, 1#2).
Proof.
  assert (Hann : ∀ i : nat, i ∈ [0] → is_Some (Some tt)) by (intros; exists tt; reflexivity).
  split; [exact Hann|].
  apply (xp_der_of_last_file ex_uri (λ _, Some tt) (λ _, Some tt) (λ _, tt) (λ i, i)
           (λ _ _ s, s) ex_prec_comps (1#2) (1#2) [0] 1 tt); [reflexivity|exact Hann].
Defined.

Lemma xp_unannotated_key_error_witness :
  (∃ i : nat, i ∈ [1; 0] ∧ (if bool_decide (i = 0) then None else Some tt) = None) ∧
  speech_activity_detection_xp (Item:=nat) (Ref:=unit) (Uem:=unit) (Soft:=nat)
    ex_uri (λ i, if bool_decide (i = 0) then None else Some tt) (λ _, Some tt)
    (λ _, tt) (λ i, i) (λ _ _ s, s) ex_prec_comps [1; 0] (1#2) (1#2) =
  inl (KeyError "annotation").
Proof.
  assert (Hm : ∃ i : nat, i ∈ [1; 0] ∧
            (if bool_decide (i = 0) then None else Some tt) = None).
  { exists 0. split; [refine (bool_decide_unpack _ _); vm_compute; reflexivity|reflexivity]. }
  split; [exact Hm|].
  apply (xp_unannotated_key_error ex_uri (λ i, if bool_decide (i = 0) then None else Some tt)
           (λ _, Some tt) (λ _, tt) (λ i, i) (λ _ _ s, s) ex_prec_comps (1#2) (1#2)
           [1; 0] Hm).
Defined.

Lemma objective_function_score_witness :
  NoDup (map ex_uri [0; 1]) ∧
  (∀ it p, it ∈ [0; 1] →
     default ∅ (ex_predictions !! 2) !! ex_uri it = Some p → p = (λ e i, i) 2 it) ∧
  (objective_function (Item:=nat) (Ref:=unit) (Uem:=unit) (Soft:=nat)
     ex_uri (λ _, Some tt) (λ _, Some tt) (λ _, tt) (λ e i, i) (λ _ _ s, s)
     ex_prec_comps ex_predictions [0; 1] (2, 1#2, 1#2)).1 =
  inr (der_value (fold_left comps_add
    (map (λ it, match Some tt with
                | Some reference =>
                    ex_prec_comps reference ((λ _ _ s, s) (1#2) (1#2) ((λ e i, i) 2 it))
                      (get_annotated (λ _, Some tt) (λ _, tt) it reference)
                | None => comps_zero
                end) [0; 1]) comps_zero)).
Proof.
  assert (Hnd : NoDup (map ex_uri [0; 1]))
    by (refine (bool_decide_unpack _ _); vm_compute; reflexivity).
  assert (Hc : ∀ it p, it ∈ [0; 1] →
     default ∅ (ex_predictions !! 2) !! ex_uri it = Some p → p = (λ e i, i) 2 it).
  { intros it p Hit H. apply elem_of_cons in Hit as [->|Hit].
    - vm_compute in H. by injection H as <-.
    - apply list_elem_of_singleton in Hit as ->. vm_compute in H. discriminate H. }
  split; [exact Hnd|]. split; [exact Hc|].
  apply (objective_function_score ex_uri (λ _, Some tt) (λ _, Some tt) (λ _, tt)
           (λ e i, i) (λ _ _ s, s) ex_prec_comps ex_predictions [0; 1] 2 (1#2) (1#2)
           Hnd Hc).
  intros it _. exists tt. reflexivity.
Defined.

Lemma objective_function_unannotated_witness :
  (∃ it : nat, it ∈ [1; 0] ∧ (if bool_decide (it = 0) then None else Some tt) = None) ∧
  (objective_function (Item:=nat) (Ref:=unit) (Uem:=unit) (Soft:=nat)
     ex_uri (λ i, if bool_decide (i = 0) then None else Some tt) (λ _, Some tt)
     (λ _, tt) (λ e i, i) (λ _ _ s, s) ex_prec_comps ∅ [1; 0] (2, 1#2, 1#2)).1 =
  inl (KeyError "annotation").
Proof.
  assert (Hm : ∃ it : nat, it ∈ [1; 0] ∧
            (if bool_decide (it = 0) then None else Some tt) = None).
  { exists 0. split; [refine (bool_decide_unpack _ _); vm_compute; reflexivity|reflexivity]. }
  split; [exact Hm|].
  apply (objective_function_unannotated ex_uri
           (λ i, if bool_decide (i = 0) then None else Some tt) (λ _, Some tt)
           (λ _, tt) (λ e i, i) (λ _ _ s, s) ex_prec_comps ∅ [1; 0] (2, 1#2, 1#2) Hm).
Defined.

Lemma apply_all_line_witness :
  @None py_exn = None ∧ ¬ (1 == 0)%Q ∧
  (∀ (reference : unit) (hard : nat) (uem : unit),
     Qle 0 (c_num (ex_prec_comps reference hard uem)) ∧
     Qle 0 (c_den (ex_prec_comps reference hard uem)) ∧
     Qle 0 (c_num (ex_rec_comps reference hard uem)) ∧
     Qle 0 (c_den (ex_rec_comps reference hard uem))) ∧
  ex_apply.1 = None ∧
  eval_lines ex_apply.2 =
  map (per_file_line 1) (scored ex_uri (λ _, Some tt) (λ _, Some tt) (λ i, i) (λ h, h)
                           ex_prec_comps ex_rec_comps [0; 1]) ++
  [{| el_uri := "ALL";
      el_precision := ratio_or_one (fold_left comps_add (map (λ x, x.1.2)
        (scored ex_uri (λ _, Some tt) (λ _, Some tt) (λ i, i) (λ h, h)
           ex_prec_comps ex_rec_comps [0; 1])) comps_zero);
      el_recall := ratio_or_one (fold_left comps_add (map (λ x, x.2)
        (scored ex_uri (λ _, Some tt) (λ _, Some tt) (λ i, i) (λ h, h)
           ex_prec_comps ex_rec_comps [0; 1])) comps_zero);
      el_f_measure := mean (map (f_of 1)
        (scored ex_uri (λ _, Some tt) (λ _, Some tt) (λ i, i) (λ h, h)
           ex_prec_comps ex_rec_comps [0; 1])) |}].
Proof.
  assert (Hb : ¬ (1 == 0)%Q) by (intros H; vm_compute in H; discriminate H).
  assert (Hn : ∀ (reference : unit) (hard : nat) (uem : unit),
     Qle 0 (c_num (ex_prec_comps reference hard uem)) ∧
     Qle 0 (c_den (ex_prec_comps reference hard uem)) ∧
     Qle 0 (c_num (ex_rec_comps reference hard uem)) ∧
     Qle 0 (c_den (ex_rec_comps reference hard uem))).
  { intros reference hard uem. unfold ex_prec_comps, ex_rec_comps.
    destruct (bool_decide (hard = 0)); simpl; split_and!; vm_compute; discriminate. }
  split; [reflexivity|]. split; [exact Hb|]. split; [exact Hn|].
  apply (apply_all_line (Item:=nat) (Ref:=unit) (Uem:=unit) ex_uri (λ _, Some tt)
           (λ _, Some tt) (λ i, i) (λ h, h) ex_prec_comps ex_rec_comps 1 None [0; 1]
           eq_refl Hb Hn).
Defined.

Lemma apply_writes_every_file_witness :
  ¬ (1 == 0)%Q ∧
  (∀ (reference : unit) (hard : nat) (uem : unit),
     Qle 0 (c_num (ex_prec_comps reference hard uem)) ∧
     Qle 0 (c_den (ex_prec_comps reference hard uem)) ∧
     Qle 0 (c_num (ex_rec_comps reference hard uem)) ∧
     Qle 0 (c_den (ex_rec_comps reference hard uem))) ∧
  omap (λ e, match e with
             | WriteSoftPkl u => Some (inl u)
             | WriteHardJson u => Some (inr u)
             | AppendEval _ => None
             end) ex_apply.2 =
  [inl "a"; inr "a"; inl "b"; inr "b"] ∧
  (∀ err, [0; 1] ≠ [] →
     apply_scoring (Item:=nat) (Ref:=unit) (Uem:=unit) ex_uri (λ _, Some tt)
       (λ _, Some tt) (λ i, i) (λ h, h) ex_prec_comps ex_rec_comps 1 (Some err) [0; 1] =
     (Some err, [])).
Proof.
  assert (Hb : ¬ (1 == 0)%Q) by (intros H; vm_compute in H; discriminate H).
  assert (Hn : ∀ (reference : unit) (hard : nat) (uem : unit),
     Qle 0 (c_num (ex_prec_comps reference hard uem)) ∧
     Qle 0 (c_den (ex_prec_comps reference hard uem)) ∧
     Qle 0 (c_num (ex_rec_comps reference hard uem)) ∧
     Qle 0 (c_den (ex_rec_comps reference hard uem))).
  { intros reference hard uem. unfold ex_prec_comps, ex_rec_comps.
    destruct (bool_decide (hard = 0)); simpl; split_and!; vm_compute; discriminate. }
  split; [exact Hb|]. split; [exact Hn|].
  apply (apply_writes_every_file (Item:=nat) (Ref:=unit) (Uem:=unit) ex_uri
           (λ _, Some tt) (λ _, Some tt) (λ i, i) (λ h, h) ex_prec_comps ex_rec_comps
           1 [0; 1] Hb Hn).
Defined.

Lemma apply_no_reference_all_line_witness :
  @None py_exn = None ∧
  (∀ it : nat, it ∈ [0; 1] → @None unit = None ∨ Some tt = None) ∧
  (apply_scoring (Item:=nat) (Ref:=unit) (Uem:=unit) ex_uri
     (λ _, None) (λ _, Some tt) (λ i, i) (λ h, h)
     ex_prec_comps ex_rec_comps 1 None [0; 1]).1 = None ∧
  eval_lines (apply_scoring (Item:=nat) (Ref:=unit) (Uem:=unit) ex_uri
                (λ _, None) (λ _, Some tt) (λ i, i) (λ h, h)
                ex_prec_comps ex_rec_comps 1 None [0; 1]).2 =
  [{| el_uri := "ALL"; el_precision := 1; el_recall := 1; el_f_measure := None |}].
Proof.
  assert (Hn : ∀ it : nat, it ∈ [0; 1] → @None unit = None ∨ Some tt = None)
    by (intros; left; reflexivity).
  split; [reflexivity|]. split; [exact Hn|].
  apply (apply_no_reference_all_line ex_uri (λ _, None) (λ _, Some tt) (λ i, i) (λ h, h)
           ex_prec_comps ex_rec_comps 1 None [0; 1] eq_refl Hn).
Defined.

